(** * Lending policy: loan approval and library loan rules

    A shallow embedding of [techniki/src/loan_approver.py] and
    [techniki/src/loan_manager.py].

    - Python [int]s are [Z].
    - Python [float]s are the kernel's binary64 numbers ([PrimFloat.float]);
      float literals are read to the nearest binary64 value, as Python does.
    - Python [str]s are [string]; class-level [dict]s are [gmap string _].
    - A call either returns a value or raises; [result] makes that explicit
      and [exn] lists the exceptions the two modules can meet.

    Argument types follow the docstrings: [approve_loan] takes an int score,
    float income and debt and a bool; the loan manager takes str tags and
    int counts of days and books.  [LoanApproverNum] is [approve_loan] again
    for income and debt that are ints or floats, as its callers pass
    them. *)

From Stdlib Require Import ZArith Zpower QArith Qminmax Floats.
From Stdlib Require Import String DecimalString List Lia Bool.
From stdpp Require Import gmap strings.

Set Warnings "-inexact-float".

Local Open Scope string_scope.
Local Open Scope Z_scope.

(** ** Exceptions and results *)

Inductive exn : Type :=
| ValueError (msg : string)
| TypeError (msg : string)
| KeyError (key : string)
| ZeroDivisionError
| OverflowError (msg : string).

Inductive result (A : Type) : Type :=
| Return (a : A)
| Raise (e : exn).

Arguments Return {A} a.
Arguments Raise {A} e.

Definition bind {A B : Type} (r : result A) (k : A -> result B) : result B :=
  match r with
  | Return a => k a
  | Raise e => Raise e
  end.

Notation "'let!' x ':=' r 'in' k" := (bind r (fun x => k))
  (at level 10, x name, r at level 100, k at level 200).

Definition raises {A : Type} (r : result A) : Prop :=
  exists e, r = Raise e.

(** ** Python float primitives *)

Module PyFloat.

(** [int] to [float]: the nearest binary64 value, ties to even.  Python
    raises [OverflowError] when that value would be infinite. *)
Definition of_int_sf (z : Z) : spec_float :=
  binary_normalize prec emax z 0 false.

Definition of_int (z : Z) : result float :=
  match of_int_sf z with
  | S754_infinity _ => Raise (OverflowError "int too large to convert to float")
  | sf => Return (SF2Prim sf)
  end.

(** [a / b] on floats: a zero divisor raises, otherwise IEEE division
    (an overflowing quotient is an infinity, not an error). *)
Definition truediv (a b : float) : result float :=
  if (b =? 0)%float then Raise ZeroDivisionError else Return (a / b)%float.

(** [x * n] and [n * x] for a float [x] and an int [n]: the int is
    converted first. *)
Definition mul_int (x : float) (n : Z) : result float :=
  let! y := of_int n in Return (x * y)%float.

Definition int_mul (n : Z) (x : float) : result float :=
  let! y := of_int n in Return (y * x)%float.

(** [x >= n] for a float [x] and a small int constant [n] (exactly
    representable, so the comparison is the float comparison). *)
Definition ge_int (x : float) (n : Z) : bool :=
  (SF2Prim (of_int_sf n) <=? x)%float.

(** [x == 0] for a float [x] and the int literal [0]. *)
Definition eq_zero (x : float) : bool := (x =? 0)%float.

(** Python's [min(a, b)]: [b] when [b < a], otherwise [a]. *)
Definition min (a b : float) : float :=
  if (b <? a)%float then b else a.

End PyFloat.

(** ** Python numbers: an argument that is an int or a float *)

Module PyNum.

Inductive number : Type :=
| Int (n : Z)
| Float (x : float).

(** [a == 0] *)
Definition eq_zero (a : number) : bool :=
  match a with
  | Int n => n =? 0
  | Float x => PyFloat.eq_zero x
  end.

(** [a >= n] for a small int constant [n]. *)
Definition ge_int (a : number) (n : Z) : bool :=
  match a with
  | Int m => n <=? m
  | Float x => PyFloat.ge_int x n
  end.

(** [a / b] on two ints: the correctly rounded quotient, computed on the
    integers themselves (no conversion of the operands); it raises when the
    quotient is too large for a float, and a zero numerator gives a zero
    with the sign of the quotient. *)
Definition int_truediv (a b : Z) : result float :=
  if b =? 0 then Raise ZeroDivisionError
  else if a =? 0 then Return (if b <? 0 then neg_zero else zero)
  else
    match SFdiv prec emax (S754_finite (a <? 0) (Z.to_pos (Z.abs a)) 0)
                          (S754_finite (b <? 0) (Z.to_pos (Z.abs b)) 0) with
    | S754_infinity _ =>
      Raise (OverflowError "integer division result too large for a float")
    | q => Return (SF2Prim q)
    end.

(** [a / b]: an int operand of a mixed division is converted first. *)
Definition truediv (a b : number) : result float :=
  match a, b with
  | Float x, Float y => PyFloat.truediv x y
  | Int m, Float y => let! x := PyFloat.of_int m in PyFloat.truediv x y
  | Float x, Int n => let! y := PyFloat.of_int n in PyFloat.truediv x y
  | Int m, Int n => int_truediv m n
  end.

End PyNum.

(** ** loan_approver.py *)

Module LoanApprover.

Record t : Type := {
  min_credit_score : Z;
  min_income : Z;
  max_debt_ratio : float
}.

(** [__init__] *)
Definition init : t := {|
  min_credit_score := 650;
  min_income := 30000;
  max_debt_ratio := 0.4%float
|}.

(** The first block of [approve_loan]: the debt-to-income ratio. *)
Definition debt_ratio (annual_income existing_debt : float) : result float :=
  if PyFloat.eq_zero annual_income then Return infinity
  else PyFloat.truediv existing_debt annual_income.

Definition approve_loan (self : t) (credit_score : Z)
    (annual_income existing_debt : float) (is_employed : bool)
    : result string :=
  let! debt_ratio := debt_ratio annual_income existing_debt in
  if negb is_employed then Return "Rejected"
  else if 750 <=? credit_score then
    if (debt_ratio <=? max_debt_ratio self)%float then Return "Approved"
    else Return "Manual Review"
  else if min_credit_score self <=? credit_score then
    if PyFloat.ge_int annual_income (min_income self)
       && (debt_ratio <=? max_debt_ratio self)%float
    then Return "Approved"
    else Return "Manual Review"
  else
    if PyFloat.ge_int annual_income (2 * min_income self)
       && (debt_ratio <=? max_debt_ratio self / 2)%float
    then Return "Manual Review"
    else Return "Rejected".

(** The decision procedure as the specification words it. *)
Inductive Decision : Type := Approved | Rejected | ManualReview.

Definition Decision_str (d : Decision) : string :=
  match d with
  | Approved => "Approved"
  | Rejected => "Rejected"
  | ManualReview => "Manual Review"
  end.

Definition spec_debtRatio (annualIncome existingDebt : float) : float :=
  if (annualIncome =? 0)%float then infinity
  else (existingDebt / annualIncome)%float.

Definition spec_decide (creditScore : Z) (annualIncome existingDebt : float)
    (isEmployed : bool) : Decision :=
  let debtRatio := spec_debtRatio annualIncome existingDebt in
  if negb isEmployed then Rejected
  else if 750 <=? creditScore then
    if (debtRatio <=? 0.4)%float then Approved else ManualReview
  else if 650 <=? creditScore then
    if (30000 <=? annualIncome)%float && (debtRatio <=? 0.4)%float
    then Approved else ManualReview
  else
    if (60000 <=? annualIncome)%float && (debtRatio <=? 0.2)%float
    then ManualReview else Rejected.

End LoanApprover.

(** The same method when income and debt are any Python numbers: the tests
    pass ints where the docstring says float. *)

Module LoanApproverNum.
Import LoanApprover.

Definition debt_ratio (annual_income existing_debt : PyNum.number)
    : result float :=
  if PyNum.eq_zero annual_income then Return infinity
  else PyNum.truediv existing_debt annual_income.

Definition approve_loan (self : t) (credit_score : Z)
    (annual_income existing_debt : PyNum.number) (is_employed : bool)
    : result string :=
  let! debt_ratio := debt_ratio annual_income existing_debt in
  if negb is_employed then Return "Rejected"
  else if 750 <=? credit_score then
    if (debt_ratio <=? max_debt_ratio self)%float then Return "Approved"
    else Return "Manual Review"
  else if min_credit_score self <=? credit_score then
    if PyNum.ge_int annual_income (min_income self)
       && (debt_ratio <=? max_debt_ratio self)%float
    then Return "Approved"
    else Return "Manual Review"
  else
    if PyNum.ge_int annual_income (2 * min_income self)
       && (debt_ratio <=? max_debt_ratio self / 2)%float
    then Return "Manual Review"
    else Return "Rejected".

End LoanApproverNum.

(** ** Python dict and datetime primitives *)

Module PyDict.

(** [k in d] *)
Definition contains {V : Type} (d : gmap string V) (k : string) : bool :=
  match d !! k with
  | Some _ => true
  | None => false
  end.

(** [d[k]] *)
Definition getitem {V : Type} (d : gmap string V) (k : string) : result V :=
  match d !! k with
  | Some v => Return v
  | None => Raise (KeyError k)
  end.

End PyDict.

Module PyDatetime.

(** A [datetime] is its proleptic Gregorian day number ([toordinal()],
    day 1 is 0001-01-01) and the microseconds elapsed since midnight.
    The type holds the years 1 to 9999 only. *)
Record datetime : Type := {
  ordinal : Z;
  microsecond_of_day : Z
}.

Definition MINORDINAL : Z := 1.
Definition MAXORDINAL : Z := 3652059.   (* 9999-12-31 *)

Definition valid (d : datetime) : Prop :=
  MINORDINAL <= ordinal d <= MAXORDINAL
  /\ 0 <= microsecond_of_day d < 86400000000.

(** [timedelta(days=n)] for an int [n]; the day count is limited to nine
    decimal digits, and a count outside the C ints fails before that test
    with another message. *)
Definition timedelta_days (n : Z) : result Z :=
  if Z.abs n <=? 999999999 then Return n
  else if (- 2 ^ 31 <=? n) && (n <? 2 ^ 31)
  then Raise (OverflowError ("days=" ++ NilZero.string_of_int (Z.to_int n)
                             ++ "; must have magnitude <= 999999999"))
  else Raise (OverflowError "Python int too large to convert to C int").

(** [d + delta] for a [delta] of whole days. *)
Definition add (d : datetime) (delta_days : Z) : result datetime :=
  let o := ordinal d + delta_days in
  if (MINORDINAL <=? o) && (o <=? MAXORDINAL)
  then Return {| ordinal := o; microsecond_of_day := microsecond_of_day d |}
  else Raise (OverflowError "date value out of range").

Definition last_day : datetime :=
  {| ordinal := MAXORDINAL; microsecond_of_day := 0 |}.

(** The values a caller may pass where a datetime is expected. *)
Inductive pyobj : Type :=
| Datetime (d : datetime)
| Date (ordinal : Z)
| Str (s : string)
| Int (n : Z)
| None_.

(** [isinstance(o, datetime)] *)
Definition as_datetime (o : pyobj) : option datetime :=
  match o with
  | Datetime d => Some d
  | _ => None
  end.

End PyDatetime.

(** ** loan_manager.py *)

Module LoanManager.
Import PyDict.

Definition REGULAR_BOOK : string := "regular".
Definition POPULAR_BOOK : string := "popular".
Definition REFERENCE_BOOK : string := "reference".

Definition REGULAR_USER : string := "regular".
Definition PREMIUM_USER : string := "premium".
Definition RESEARCHER_USER : string := "researcher".

Definition LOAN_PERIODS : gmap string (gmap string Z) :=
  {[ REGULAR_BOOK := {[ "min" := 14; "max" := 30 ]};
     POPULAR_BOOK := {[ "min" := 7; "max" := 14 ]};
     REFERENCE_BOOK := {[ "min" := 1; "max" := 3 ]} ]}.

Definition MAX_BOOKS : gmap string Z :=
  {[ REGULAR_USER := 5; PREMIUM_USER := 10; RESEARCHER_USER := 15 ]}.

Definition MAX_RENEWALS : Z := 2.

Definition validate_loan_days (book_type : string) (loan_days : Z)
    : result bool :=
  if negb (contains LOAN_PERIODS book_type)
  then Raise (ValueError ("Unknown book type: " ++ book_type))
  else
    let! period := getitem LOAN_PERIODS book_type in
    let! min_days := getitem period "min" in
    let! period := getitem LOAN_PERIODS book_type in
    let! max_days := getitem period "max" in
    if (loan_days <? min_days) || (loan_days >? max_days)
    then Return false
    else Return true.

(** [additional_books] defaults to [1] in the source. *)
Definition validate_book_quantity (user_type : string)
    (current_borrowed additional_books : Z) : result bool :=
  if negb (contains MAX_BOOKS user_type)
  then Raise (ValueError ("Unknown user type: " ++ user_type))
  else if current_borrowed <? 0
  then Raise (ValueError "Current borrowed books cannot be negative")
  else if additional_books <=? 0
  then Raise (ValueError "Additional books must be positive")
  else
    let! max_allowed := getitem MAX_BOOKS user_type in
    if current_borrowed + additional_books >? max_allowed
    then Return false
    else Return true.

(** [previous_renewals] defaults to [0] and [is_requested] to [False]. *)
Definition can_renew_loan (book_type : string)
    (days_already_loaned renewal_days previous_renewals : Z)
    (is_requested : bool) : result bool :=
  if negb (contains LOAN_PERIODS book_type)
  then Raise (ValueError ("Unknown book type: " ++ book_type))
  else if days_already_loaned <? 0
  then Raise (ValueError "Days already loaned cannot be negative")
  else if renewal_days <=? 0
  then Raise (ValueError "Renewal days must be positive")
  else if previous_renewals <? 0
  then Raise (ValueError "Previous renewals cannot be negative")
  else if is_requested then Return false
  else if previous_renewals >=? MAX_RENEWALS then Return false
  else
    let! period := getitem LOAN_PERIODS book_type in
    let! max_days := getitem period "max" in
    if days_already_loaned + renewal_days >? max_days
    then Return false
    else Return true.

Definition calculate_due_date (loan_date : PyDatetime.pyobj) (loan_days : Z)
    : result PyDatetime.datetime :=
  match PyDatetime.as_datetime loan_date with
  | None => Raise (TypeError "Loan date must be a datetime object")
  | Some loan_date =>
    if loan_days <=? 0
    then Raise (ValueError "Loan days must be positive")
    else
      let! delta := PyDatetime.timedelta_days loan_days in
      PyDatetime.add loan_date delta
  end.

Definition fine_rates : gmap string float :=
  {[ REGULAR_BOOK := 0.5%float;
     POPULAR_BOOK := 1.0%float;
     REFERENCE_BOOK := 2.0%float ]}.

Definition calculate_fine (days_overdue : Z) (book_type : string)
    : result float :=
  if days_overdue <=? 0 then Return 0.0%float
  else if negb (contains LOAN_PERIODS book_type)
  then Raise (ValueError ("Unknown book type: " ++ book_type))
  else
    let! daily_rate := getitem fine_rates book_type in
    let! max_fine := PyFloat.mul_int daily_rate 10 in
    let! fine := PyFloat.int_mul days_overdue daily_rate in
    Return (PyFloat.min fine max_fine).

End LoanManager.

(** ** Vocabulary of the specification *)

Definition is_decision (s : string) : Prop :=
  s = "Approved" \/ s = "Rejected" \/ s = "Manual Review".

(** A number fits the floats when it is a float, or an int below [2^1023]
    in magnitude. *)
Definition fits_float (a : PyNum.number) : Prop :=
  match a with
  | PyNum.Int n => Z.abs n < 2 ^ 1023
  | PyNum.Float _ => True
  end.

(** The three decisions from worst to best for the applicant. *)
Definition Decision_rank (d : LoanApprover.Decision) : Z :=
  match d with
  | LoanApprover.Rejected => 0
  | LoanApprover.ManualReview => 1
  | LoanApprover.Approved => 2
  end.

(** The categories and tiers of the specification, with the string tags the
    source uses for them and the specification's tables. *)

Inductive ItemCategory : Type := Regular | Popular | Reference.

Definition category_tag (c : ItemCategory) : string :=
  match c with
  | Regular => LoanManager.REGULAR_BOOK
  | Popular => LoanManager.POPULAR_BOOK
  | Reference => LoanManager.REFERENCE_BOOK
  end.

Definition minDays (c : ItemCategory) : Z :=
  match c with Regular => 14 | Popular => 7 | Reference => 1 end.

Definition maxDays (c : ItemCategory) : Z :=
  match c with Regular => 30 | Popular => 14 | Reference => 3 end.

Inductive UserTier : Type := RegularUser | Premium | Researcher.

Definition tier_tag (t : UserTier) : string :=
  match t with
  | RegularUser => LoanManager.REGULAR_USER
  | Premium => LoanManager.PREMIUM_USER
  | Researcher => LoanManager.RESEARCHER_USER
  end.

Definition maxItems (t : UserTier) : Z :=
  match t with RegularUser => 5 | Premium => 10 | Researcher => 15 end.

Definition known_category (book_type : string) : Prop :=
  exists c, book_type = category_tag c.

Definition known_tier (user_type : string) : Prop :=
  exists t, user_type = tier_tag t.

(** The exact rational value of a finite float. *)
Definition SF2Q (x : spec_float) : option Q :=
  match x with
  | S754_zero _ => Some 0%Q
  | S754_finite s m e => Some (inject_Z (cond_Zopp s (Zpos m)) * 2 ^ e)%Q
  | S754_infinity _ | S754_nan => None
  end.

Definition float_value (f : float) : option Q := SF2Q (Prim2SF f).

(** The daily fine rate of the specification, and the fine it prescribes. *)
Definition dailyRate (c : ItemCategory) : Q :=
  match c with Regular => 1 # 2 | Popular => 1 | Reference => 2 end.

Definition spec_fine (daysOverdue : Z) (c : ItemCategory) : Q :=
  Qmin (inject_Z daysOverdue * dailyRate c) (10 * dailyRate c).

(** The floats [calculate_fine] works with for a known category. *)
Definition rate_float (c : ItemCategory) : float :=
  match c with Regular => 0.5 | Popular => 1.0 | Reference => 2.0 end%float.

Definition cap_float (c : ItemCategory) : float :=
  match c with Regular => 5.0 | Popular => 10.0 | Reference => 20.0 end%float.

(** An int converts to a float when its nearest binary64 value is finite. *)
Definition converts (z : Z) : Prop :=
  exists f, PyFloat.of_int z = Return f.

Definition has_value (f : float) (q : Q) : Prop :=
  exists q', float_value f = Some q' /\ (q' == q)%Q.

(** A returned amount is in whole hundredths. *)
Definition two_decimals (f : float) : Prop :=
  exists n, has_value f (n # 100).

(** The check that a call returns exactly the fine of the specification. *)
Definition returns_spec_fine (days_overdue : Z) (c : ItemCategory) : bool :=
  match LoanManager.calculate_fine days_overdue (category_tag c) with
  | Return v =>
    match float_value v with
    | Some q => Qeq_bool q (spec_fine days_overdue c)
    | None => false
    end
  | Raise _ => false
  end.

(** * Properties *)

(** ** Rounding to binary64 *)

Section Rounding.

Lemma fexp_eq e : fexp prec emax e = Z.max (e - 53) (-1074).
Proof. reflexivity. Qed.

Lemma digits2_pos_bounds p :
  2 ^ (Zpos (digits2_pos p) - 1) <= Zpos p < 2 ^ Zpos (digits2_pos p).
Proof.
  induction p as [p IH|p IH|]; cbn [digits2_pos].
  - rewrite Pos2Z.inj_succ, Z.pow_succ_r by lia.
    replace (Z.succ (Zpos (digits2_pos p)) - 1)
      with (Z.succ (Zpos (digits2_pos p) - 1)) by lia.
    rewrite Z.pow_succ_r by lia. lia.
  - rewrite Pos2Z.inj_succ, Z.pow_succ_r by lia.
    replace (Z.succ (Zpos (digits2_pos p)) - 1)
      with (Z.succ (Zpos (digits2_pos p) - 1)) by lia.
    rewrite Z.pow_succ_r by lia. lia.
  - cbn. lia.
Qed.

Lemma Zdigits2_bounds m :
  0 < m -> 2 ^ (Zdigits2 m - 1) <= m < 2 ^ Zdigits2 m.
Proof. destruct m; try lia. intros _. apply digits2_pos_bounds. Qed.

Lemma Zdigits2_pos m : 0 < m -> 0 < Zdigits2 m.
Proof. destruct m; cbn; lia. Qed.

Lemma Zdigits2_unique m d :
  0 < d -> 2 ^ (d - 1) <= m < 2 ^ d -> Zdigits2 m = d.
Proof.
  intros Hd [Hlo Hhi].
  assert (Hm : 0 < m) by (pose proof (Z.pow_pos_nonneg 2 (d - 1)); lia).
  pose proof (Zdigits2_bounds m Hm) as [Hlo' Hhi'].
  pose proof (Zdigits2_pos m Hm) as Hpos.
  destruct (Z.lt_trichotomy (Zdigits2 m) d) as [H|[H|H]]; [|exact H|].
  - assert (2 ^ Zdigits2 m <= 2 ^ (d - 1)) by (apply Z.pow_le_mono_r; lia).
    lia.
  - assert (2 ^ d <= 2 ^ (Zdigits2 m - 1)) by (apply Z.pow_le_mono_r; lia).
    lia.
Qed.

Lemma shr_1_m r : 0 <= shr_m r -> shr_m (shr_1 r) = shr_m r / 2.
Proof.
  destruct r as [m rb sb]; cbn [shr_m]. intros Hm.
  destruct m as [|[p|p|]|p]; cbn [shr_1 shr_m]; try lia.
  - reflexivity.
  - rewrite Pos2Z.inj_xI. apply Z.div_unique with 1; lia.
  - rewrite Pos2Z.inj_xO. apply Z.div_unique with 0; lia.
  - reflexivity.
Qed.

Lemma iter_pos_shr_1_m n : forall r,
  0 <= shr_m r -> shr_m (SpecFloat.iter_pos shr_1 n r) = shr_m r / 2 ^ Zpos n.
Proof.
  assert (Hnn : forall r, 0 <= shr_m r -> 0 <= shr_m r / 2)
    by (intros; apply Z.div_pos; lia).
  induction n as [n IH|n IH|]; intros r Hr; cbn [SpecFloat.iter_pos].
  - assert (H1 : 0 <= shr_m (shr_1 r)) by (rewrite shr_1_m; auto).
    assert (H2 : 0 <= shr_m (SpecFloat.iter_pos shr_1 n (shr_1 r))).
    { rewrite IH by assumption. apply Z.div_pos; [assumption|].
      apply Z.pow_pos_nonneg; lia. }
    rewrite IH, IH, shr_1_m by assumption.
    rewrite !Z.div_div by (try apply Z.pow_pos_nonneg; lia).
    f_equal. rewrite Pos2Z.inj_xI, <- Z.pow_add_r, <- (Z.pow_1_r 2) at 1 by lia.
    rewrite <- Z.pow_add_r by lia. f_equal. lia.
  - assert (H2 : 0 <= shr_m (SpecFloat.iter_pos shr_1 n r)).
    { rewrite IH by assumption. apply Z.div_pos; [assumption|].
      apply Z.pow_pos_nonneg; lia. }
    rewrite IH, IH by assumption.
    rewrite !Z.div_div by (try apply Z.pow_pos_nonneg; lia).
    f_equal. rewrite Pos2Z.inj_xO, <- Z.pow_add_r by lia. f_equal. lia.
  - rewrite shr_1_m by assumption. reflexivity.
Qed.

Lemma shr_m_e r e n :
  0 <= shr_m r ->
  shr_m (fst (shr r e n)) = shr_m r / 2 ^ Z.max 0 n
  /\ snd (shr r e n) = e + Z.max 0 n.
Proof.
  intros Hr. destruct n as [|n|n]; cbn [shr fst snd].
  - rewrite Z.div_1_r. lia.
  - rewrite iter_pos_shr_1_m by assumption.
    replace (Z.max 0 (Zpos n)) with (Zpos n) by lia. auto.
  - replace (Z.max 0 (Zneg n)) with 0 by lia. rewrite Z.div_1_r. lia.
Qed.

Lemma shr_record_of_loc_m m l : shr_m (shr_record_of_loc m l) = m.
Proof. destruct l as [|[]]; reflexivity. Qed.

Lemma round_nearest_even_bounds m l :
  m <= round_nearest_even m l <= m + 1.
Proof.
  destruct l as [|[]]; cbn [round_nearest_even]; try lia.
  destruct (Z.even m); lia.
Qed.

(** The result of [binary_round_aux] on a mantissa that is not negative,
    up to the choice made when rounding. *)
Lemma binary_round_aux_shape s M E l :
  0 <= M ->
  let n1 := Z.max 0 (fexp prec emax (Zdigits2 M + E) - E) in
  let m' := M / 2 ^ n1 in
  let e' := E + n1 in
  exists m1,
    m' <= m1 <= m' + 1 /\
    let n2 := Z.max 0 (fexp prec emax (Zdigits2 m1 + e') - e') in
    let m'' := m1 / 2 ^ n2 in
    let e'' := e' + n2 in
    binary_round_aux prec emax s M E l
    = match m'' with
      | Z0 => S754_zero s
      | Zpos m => if e'' <=? emax - prec then S754_finite s m e''
                  else S754_infinity s
      | Zneg _ => S754_nan
      end.
Proof.
  intros HM n1 m' e'.
  unfold binary_round_aux, shr_fexp.
  pose proof (shr_m_e (shr_record_of_loc M l) E
                (fexp prec emax (Zdigits2 M + E) - E)) as H1.
  rewrite shr_record_of_loc_m in H1. specialize (H1 HM).
  destruct (shr (shr_record_of_loc M l) E _) as [mrs1 e1].
  cbn [fst snd] in H1. destruct H1 as [Hm1 He1].
  fold n1 in Hm1, He1. fold m' in Hm1. fold e' in He1. subst e1.
  set (m1 := round_nearest_even (shr_m mrs1) (loc_of_shr_record mrs1)).
  exists m1.
  assert (Hb : m' <= m1 <= m' + 1).
  { rewrite <- Hm1. apply round_nearest_even_bounds. }
  split; [exact Hb|].
  assert (Hm' : 0 <= m').
  { apply Z.div_pos; [assumption|apply Z.pow_pos_nonneg; lia]. }
  pose proof (shr_m_e (shr_record_of_loc m1 loc_Exact) e'
                (fexp prec emax (Zdigits2 m1 + e') - e')) as H2.
  rewrite shr_record_of_loc_m in H2. specialize (H2 ltac:(lia)).
  destruct (shr (shr_record_of_loc m1 loc_Exact) e' _) as [mrs2 e2].
  cbn [fst snd] in H2. destruct H2 as [Hm2 He2].
  cbv zeta. rewrite Hm2, He2. reflexivity.
Qed.


Lemma binary_round_aux_sign s M E l :
  0 <= M ->
  match binary_round_aux prec emax s M E l with
  | S754_zero s' | S754_infinity s' | S754_finite s' _ _ => s' = s
  | S754_nan => False
  end.
Proof.
  intros HM.
  destruct (binary_round_aux_shape s M E l HM) as (m1 & Hb & ->).
  cbv zeta.
  set (m'' := m1 / 2 ^ _).
  assert (0 <= m'').
  { apply Z.div_pos; [|apply Z.pow_pos_nonneg; lia].
    assert (0 <= M / 2 ^ Z.max 0 (fexp prec emax (Zdigits2 M + E) - E)); [|lia].
    apply Z.div_pos; [assumption|apply Z.pow_pos_nonneg; lia]. }
  destruct m''; [reflexivity| |lia].
  destruct (_ <=? _); reflexivity.
Qed.

Lemma binary_round_aux_normal s M E l :
  0 < M -> 53 <= Zdigits2 M -> -1074 <= E ->
  (exists m e,
      binary_round_aux prec emax s M E l = S754_finite s m e
      /\ Zdigits2 (Zpos m) = 53
      /\ E + Zdigits2 M - 53 <= e <= E + Zdigits2 M - 52
      /\ e <= 971)
  \/ (binary_round_aux prec emax s M E l = S754_infinity s
      /\ 971 <= E + Zdigits2 M - 53).
Proof.
  intros HM Hd HE.
  destruct (binary_round_aux_shape s M E l ltac:(lia)) as (m1 & Hb & ->).
  cbv zeta. revert Hb.
  pose proof (Zdigits2_bounds M HM) as [Hlo Hhi].
  set (d := Zdigits2 M) in *.
  rewrite fexp_eq.
  replace (Z.max 0 (Z.max (d + E - 53) (-1074) - E)) with (d - 53) by lia.
  set (m' := M / 2 ^ (d - 53)).
  assert (Hm' : 2 ^ 52 <= m' < 2 ^ 53).
  { assert (Hp : 0 < 2 ^ (d - 53)) by (apply Z.pow_pos_nonneg; lia).
    assert (H52 : 2 ^ (d - 1) = 2 ^ 52 * 2 ^ (d - 53))
      by (rewrite <- Z.pow_add_r by lia; f_equal; lia).
    assert (H53 : 2 ^ d = 2 ^ 53 * 2 ^ (d - 53))
      by (rewrite <- Z.pow_add_r by lia; f_equal; lia).
    rewrite H52 in Hlo. rewrite H53 in Hhi.
    split.
    - apply Z.div_le_lower_bound; lia.
    - apply Z.div_lt_upper_bound; lia. }
  intros Hb.
  assert (Hcase : m1 < 2 ^ 53 \/ m1 = 2 ^ 53) by lia.
  rewrite fexp_eq.
  destruct Hcase as [Hlt|Heq].
  - assert (Hd1 : Zdigits2 m1 = 53) by (apply Zdigits2_unique; lia).
    rewrite Hd1.
    replace (Z.max 0 (Z.max (53 + (E + (d - 53)) - 53) (-1074) - (E + (d - 53))))
      with 0 by lia.
    rewrite Z.div_1_r, Z.add_0_r.
    destruct m1 as [|m|m]; [lia| |lia].
    change (emax - prec) with 971.
    destruct (Z.leb_spec (E + (d - 53)) 971).
    + left. exists m, (E + (d - 53)). repeat split; try assumption; lia.
    + right. split; [reflexivity|lia].
  - assert (Hd1 : Zdigits2 m1 = 54) by (subst m1; reflexivity).
    rewrite Hd1.
    replace (Z.max 0 (Z.max (54 + (E + (d - 53)) - 53) (-1074) - (E + (d - 53))))
      with 1 by lia.
    subst m1. change (2 ^ 53 / 2 ^ 1) with (Zpos (2 ^ 52)).
    change (emax - prec) with 971.
    destruct (Z.leb_spec (E + (d - 53) + 1) 971).
    + left. exists (2 ^ 52)%positive, (E + (d - 53) + 1).
      repeat split; try reflexivity; lia.
    + right. split; [reflexivity|lia].
Qed.

Lemma Zpos_iter_xO p k : Zpos (Pos.iter xO p k) = Zpos p * 2 ^ Zpos k.
Proof.
  change (Pos.iter xO p k) with (shift_pos k p).
  rewrite shift_pos_correct. change (Zpower_pos 2 k) with (2 ^ Zpos k). lia.
Qed.


Lemma valid_binary_normal s m e :
  Zdigits2 (Zpos m) = 53 -> -1074 <= e <= 971 ->
  valid_binary (S754_finite s m e) = true.
Proof.
  intros Hd He. unfold SpecFloat.valid_binary, bounded, canonical_mantissa.
  cbn [Zdigits2] in Hd. rewrite Hd, fexp_eq.
  change (emax - prec) with 971.
  apply andb_true_intro; split; [apply Z.eqb_eq|apply Z.leb_le]; lia.
Qed.

(** The nearest float of a positive int. *)
Lemma binary_normalize_pos z :
  0 < z ->
  (exists m e,
      binary_normalize prec emax z 0 false = S754_finite false m e
      /\ Zdigits2 (Zpos m) = 53
      /\ Zdigits2 z - 53 <= e <= Zdigits2 z - 52
      /\ e <= 971)
  \/ (binary_normalize prec emax z 0 false = S754_infinity false
      /\ 1024 <= Zdigits2 z).
Proof.
  destruct z as [|p|p]; try lia. intros _.
  cbn [binary_normalize Zdigits2]. unfold binary_round, shl_align.
  rewrite fexp_eq.
  pose proof (digits2_pos_bounds p) as [Hlo Hhi].
  set (d := Zpos (digits2_pos p)) in *.
  assert (Hd : 0 < d) by (unfold d; lia).
  replace (Z.max (d + 0 - 53) (-1074)) with (d - 53) by lia.
  destruct (d - 53 - 0) as [|k|k] eqn:Hk.
  - destruct (binary_round_aux_normal false (Zpos p) 0 loc_Exact)
      as [(m & e & H & Hm & He & He')|[H Hinf]];
      [lia|cbn [Zdigits2]; fold d; lia|lia|
       |right; split; [exact H|cbn [Zdigits2] in Hinf; fold d in Hinf; lia]].
    left. exists m, e. cbn [Zdigits2] in He. fold d in He.
    repeat split; try assumption; lia.
  - destruct (binary_round_aux_normal false (Zpos p) 0 loc_Exact)
      as [(m & e & H & Hm & He & He')|[H Hinf]];
      [lia|cbn [Zdigits2]; fold d; lia|lia|
       |right; split; [exact H|cbn [Zdigits2] in Hinf; fold d in Hinf; lia]].
    left. exists m, e. cbn [Zdigits2] in He. fold d in He.
    repeat split; try assumption; lia.
  - assert (HM : Zdigits2 (Zpos (Pos.iter xO p k)) = 53).
    { apply Zdigits2_unique; [lia|]. rewrite Zpos_iter_xO.
      assert (Hp : 0 < 2 ^ Zpos k) by (apply Z.pow_pos_nonneg; lia).
      assert (H52 : 2 ^ (53 - 1) = 2 ^ (d - 1) * 2 ^ Zpos k)
        by (rewrite <- Z.pow_add_r by lia; f_equal; lia).
      assert (H53 : 2 ^ 53 = 2 ^ d * 2 ^ Zpos k)
        by (rewrite <- Z.pow_add_r by lia; f_equal; lia).
      rewrite H52, H53. split; [apply Z.mul_le_mono_nonneg_r|
                                apply Z.mul_lt_mono_pos_r]; lia. }
    destruct (binary_round_aux_normal false (Zpos (Pos.iter xO p k)) (d - 53)
                loc_Exact)
      as [(m & e & H & Hm & He & He')|[H Hinf]];
      [lia|lia|lia| |right; split; [exact H|rewrite HM in Hinf; lia]].
    left. exists m, e. rewrite HM in He.
    repeat split; try assumption; lia.
Qed.

End Rounding.

(** ** Facts about binary64 operations *)

Section FloatFacts.

Lemma of_int_returns z f :
  0 < z -> PyFloat.of_int z = Return f ->
  exists m e,
    Prim2SF f = S754_finite false m e
    /\ Zdigits2 (Zpos m) = 53
    /\ Zdigits2 z - 53 <= e <= 971.
Proof.
  intros Hz. unfold PyFloat.of_int, PyFloat.of_int_sf.
  destruct (binary_normalize_pos z Hz) as [(m & e & H & Hm & He & He')|[H _]];
    rewrite H; [|discriminate].
  intros Heq.
  assert (Hf : f = SF2Prim (S754_finite false m e)) by congruence.
  rewrite Hf. exists m, e.
  assert (0 < Zdigits2 z) by (apply Zdigits2_pos; assumption).
  rewrite Prim2SF_SF2Prim by (apply valid_binary_normal; [assumption|lia]).
  repeat split; try assumption; lia.
Qed.

Lemma mul_normal_exponent f r m e mr er :
  Prim2SF f = S754_finite false m e -> Zdigits2 (Zpos m) = 53 ->
  Prim2SF r = S754_finite false mr er -> Zdigits2 (Zpos mr) = 53 ->
  -1074 <= e + er ->
  (exists m2 e2,
      Prim2SF (f * r)%float = S754_finite false m2 e2 /\ e + er + 52 <= e2)
  \/ Prim2SF (f * r)%float = S754_infinity false.
Proof.
  intros Hf Hm Hr Hmr He.
  rewrite FloatAxioms.mul_spec, Hf, Hr. unfold SF64mul, SFmul. cbn [xorb].
  assert (H1 : 2 ^ 52 <= Zpos m)
    by (pose proof (Zdigits2_bounds (Zpos m) ltac:(lia)); rewrite Hm in *; lia).
  assert (H2 : 2 ^ 52 <= Zpos mr)
    by (pose proof (Zdigits2_bounds (Zpos mr) ltac:(lia)); rewrite Hmr in *; lia).
  assert (HM : 2 ^ 104 <= Zpos (m * mr)).
  { rewrite Pos2Z.inj_mul. change (2 ^ 104) with (2 ^ 52 * 2 ^ 52).
    apply Z.mul_le_mono_nonneg; lia. }
  assert (Hd : 105 <= Zdigits2 (Zpos (m * mr))).
  { pose proof (Zdigits2_bounds (Zpos (m * mr)) ltac:(lia)) as [_ Hhi].
    assert (104 < Zdigits2 (Zpos (m * mr))); [|lia].
    apply (Z.pow_lt_mono_r_iff 2); [lia|cbn; lia|lia]. }
  destruct (binary_round_aux_normal false (Zpos (m * mr)) (e + er) loc_Exact)
    as [(m2 & e2 & H & _ & He2 & _)|[H _]]; [lia|lia|lia| |right; exact H].
  left. exists m2, e2. split; [exact H|lia].
Qed.

Lemma ltb_smaller_exponent c x mc ec :
  Prim2SF c = S754_finite false mc ec ->
  (exists m e, Prim2SF x = S754_finite false m e /\ ec < e)
  \/ Prim2SF x = S754_infinity false ->
  (c <? x)%float = true.
Proof.
  intros Hc Hx. rewrite FloatAxioms.ltb_spec, Hc. unfold SFltb, SFcompare.
  destruct Hx as [(m & e & -> & He)| ->]; [|reflexivity].
  rewrite (proj2 (Z.compare_lt_iff ec e) He). reflexivity.
Qed.

(** A float below zero is a negative finite number or minus infinity. *)
Lemma negative_cases y :
  (y <? 0)%float = true ->
  (exists m e, Prim2SF y = S754_finite true m e)
  \/ Prim2SF y = S754_infinity true.
Proof.
  rewrite FloatAxioms.ltb_spec. change (Prim2SF 0) with (S754_zero false).
  unfold SFltb, SFcompare.
  destruct (Prim2SF y) as [s|[]| |[] m e]; try discriminate; eauto.
Qed.

(** A float above zero and below infinity is a positive finite number. *)
Lemma positive_finite_cases x :
  (0 <? x)%float = true -> (x <? infinity)%float = true ->
  exists m e, Prim2SF x = S754_finite false m e.
Proof.
  rewrite !FloatAxioms.ltb_spec. change (Prim2SF 0) with (S754_zero false).
  change (Prim2SF infinity) with (S754_infinity false).
  unfold SFltb, SFcompare.
  destruct (Prim2SF x) as [s|[]| |[] m e]; try discriminate; eauto.
Qed.

Lemma negative_not_zero y : (y <? 0)%float = true -> (y =? 0)%float = false.
Proof.
  intros H. rewrite FloatAxioms.eqb_spec. change (Prim2SF 0) with (S754_zero false).
  destruct (negative_cases y H) as [(m & e & ->)| ->]; reflexivity.
Qed.

(** A positive finite number divided by a negative one is at most any
    positive finite bound. *)
Lemma div_by_negative_leb x y c mc ec :
  (0 <? x)%float = true -> (x <? infinity)%float = true ->
  (y <? 0)%float = true ->
  Prim2SF c = S754_finite false mc ec ->
  (x / y <=? c)%float = true.
Proof.
  intros H0 Hinf Hy Hc.
  destruct (positive_finite_cases x H0 Hinf) as (mx & ex & Hx).
  rewrite FloatAxioms.leb_spec, FloatAxioms.div_spec, Hx, Hc. unfold SF64div, SFdiv.
  destruct (negative_cases y Hy) as [(my & ey & ->)| ->]; [|reflexivity].
  unfold SFdiv_core_binary.
  set (m' := match _ - _ - _ with Z0 => _ | Zpos _ => _ | Zneg _ => _ end).
  assert (Hm' : 0 <= m').
  { unfold m'. destruct (_ - _ - _); [lia| |lia].
    apply Z.shiftl_nonneg. lia. }
  pose proof (Z.div_pos m' (Zpos my) Hm' ltac:(lia)) as Hq.
  unfold Z.div in Hq. destruct (Z.div_eucl m' (Zpos my)) as [q r].
  cbn [fst xorb] in *.
  pose proof (binary_round_aux_sign true q
                (Z.min (fexp prec emax
                          (Zdigits2 (Zpos mx) + ex - (Zdigits2 (Zpos my) + ey)))
                       (ex - ey))
                (new_location (Zpos my) r) Hq) as Hs.
  destruct (binary_round_aux _ _ _ _ _ _) as [s|s| |s m e];
    try contradiction; subst s; reflexivity.
Qed.

Lemma of_int_cases z :
  (exists f, PyFloat.of_int z = Return f)
  \/ PyFloat.of_int z
     = Raise (OverflowError "int too large to convert to float").
Proof.
  unfold PyFloat.of_int. destruct (PyFloat.of_int_sf z); eauto.
Qed.

(** Ints below [2^1023] convert; ints from [2^1024] on do not. *)
Lemma of_int_small_returns z :
  0 < z < 2 ^ 1023 -> exists f, PyFloat.of_int z = Return f.
Proof.
  intros [Hz Hlt]. unfold PyFloat.of_int, PyFloat.of_int_sf.
  destruct (binary_normalize_pos z Hz) as [(m & e & H & _)|[H Hd]];
    rewrite H; [eauto|].
  exfalso. pose proof (Zdigits2_bounds z Hz) as [Hlo _].
  assert (2 ^ 1023 <= 2 ^ (Zdigits2 z - 1))
    by (apply Z.pow_le_mono_r; lia).
  lia.
Qed.

Lemma of_int_large_raises z :
  2 ^ 1024 <= z ->
  PyFloat.of_int z = Raise (OverflowError "int too large to convert to float").
Proof.
  intros Hz. destruct (of_int_cases z) as [[f Hf]|H]; [exfalso|exact H].
  assert (Hpos : 0 < z) by (pose proof (Z.pow_pos_nonneg 2 1024); lia).
  destruct (of_int_returns z f Hpos Hf) as (m & e & _ & _ & He).
  pose proof (Zdigits2_bounds z Hpos) as [_ Hhi].
  assert (1024 < Zdigits2 z); [|lia].
  apply (Z.pow_lt_mono_r_iff 2); [lia|apply Z.lt_le_incl, Zdigits2_pos; lia|lia].
Qed.

End FloatFacts.


(** ** Conversions and divisions that stay within the floats *)

Section NumberFacts.

Lemma Zdigits2_le x k : 0 <= k -> 0 <= x < 2 ^ k -> Zdigits2 x <= k.
Proof.
  intros Hk [H0 Hlt]. destruct (Z.eq_dec x 0) as [->|Hx]; [exact Hk|].
  pose proof (Zdigits2_bounds x ltac:(lia)) as [Hlo _].
  pose proof (Zdigits2_pos x ltac:(lia)).
  assert (Zdigits2 x - 1 < k); [|lia].
  apply (Z.pow_lt_mono_r_iff 2); lia.
Qed.

Lemma div_pow2_lt M n d :
  0 <= M < 2 ^ d -> 0 <= d -> 0 <= n -> M / 2 ^ n < 2 ^ Z.max 0 (d - n).
Proof.
  intros [H0 Hlt] Hd Hn.
  assert (Hp : 0 < 2 ^ n) by (apply Z.pow_pos_nonneg; lia).
  apply Z.div_lt_upper_bound; [exact Hp|].
  rewrite <- Z.pow_add_r by lia.
  eapply Z.lt_le_trans; [exact Hlt|]. apply Z.pow_le_mono_r; lia.
Qed.

(** Rounding a number below [2^1023] never gives an infinity. *)
Lemma binary_round_aux_not_infinite s M E l s' :
  0 <= M -> E <= 971 -> Zdigits2 M + E <= 1023 ->
  binary_round_aux prec emax s M E l <> S754_infinity s'.
Proof.
  intros HM HE Hd.
  destruct (binary_round_aux_shape s M E l HM) as (m1 & Hb & ->).
  cbv zeta.
  assert (HdM : 0 <= Zdigits2 M) by (destruct M; cbn; lia).
  assert (HMlt : 0 <= M < 2 ^ Zdigits2 M).
  { split; [exact HM|]. destruct (Z.eq_dec M 0) as [->|]; [reflexivity|].
    apply Zdigits2_bounds. lia. }
  rewrite !fexp_eq in *.
  set (n1 := Z.max 0 (Z.max (Zdigits2 M + E - 53) (-1074) - E)) in *.
  pose proof (div_pow2_lt M n1 (Zdigits2 M) HMlt HdM ltac:(lia)) as Hm'.
  assert (H0m' : 0 <= M / 2 ^ n1)
    by (apply Z.div_pos; [lia|apply Z.pow_pos_nonneg; lia]).
  set (k := Z.max 0 (Zdigits2 M - n1)) in *.
  assert (Hm1 : 0 <= m1 < 2 ^ (k + 1)).
  { rewrite Z.pow_add_r by lia. change (2 ^ 1) with 2.
    assert (0 < 2 ^ k) by (apply Z.pow_pos_nonneg; lia). lia. }
  pose proof (Zdigits2_le m1 (k + 1) ltac:(lia) Hm1) as Hd1.
  assert (Hd10 : 0 <= Zdigits2 m1) by (destruct m1; cbn; lia).
  set (e'' := E + n1 + Z.max 0 (Z.max (Zdigits2 m1 + (E + n1) - 53) (-1074)
                                 - (E + n1))).
  assert (He'' : e'' <= 971) by (unfold e''; lia).
  destruct (m1 / 2 ^ _); try discriminate.
  change (emax - prec) with 971.
  destruct (Z.leb_spec e'' 971); [discriminate|lia].
Qed.

Lemma binary_round_aux_opp M E l :
  binary_round_aux prec emax true M E l
  = SFopp (binary_round_aux prec emax false M E l).
Proof.
  unfold binary_round_aux.
  destruct (shr_fexp prec emax M E l) as [mrs1 e1].
  destruct (shr_fexp prec emax _ e1 loc_Exact) as [mrs2 e2].
  destruct (shr_m mrs2); [reflexivity| |reflexivity].
  destruct (e2 <=? emax - prec); reflexivity.
Qed.

Lemma binary_normalize_neg p :
  binary_normalize prec emax (Zneg p) 0 false
  = SFopp (binary_normalize prec emax (Zpos p) 0 false).
Proof.
  cbn [binary_normalize]. unfold binary_round.
  destruct (shl_align p 0 _) as [mz ez]. apply binary_round_aux_opp.
Qed.

(** The float of an int other than zero: finite, not zero, of the int's
    sign. *)
Lemma of_int_returns_nonzero z f :
  z <> 0 -> PyFloat.of_int z = Return f ->
  exists m e, Prim2SF f = S754_finite (z <? 0) m e.
Proof.
  intros Hz Hf. destruct z as [|p|p]; [contradiction| |].
  - destruct (of_int_returns (Zpos p) f ltac:(lia) Hf) as (m & e & H & _).
    exists m, e. exact H.
  - revert Hf. unfold PyFloat.of_int, PyFloat.of_int_sf.
    rewrite binary_normalize_neg.
    destruct (binary_normalize_pos (Zpos p) ltac:(lia))
      as [(m & e & H & Hm & He & He')|[H _]]; rewrite H; cbn [SFopp negb];
      [|discriminate].
    intros Heq.
    assert (Hf : f = SF2Prim (S754_finite true m e)) by congruence.
    exists m, e. rewrite Hf.
    assert (0 < Zdigits2 (Zpos p)) by (apply Zdigits2_pos; lia).
    apply Prim2SF_SF2Prim, valid_binary_normal; [assumption|lia].
Qed.

Lemma of_int_nonzero z f :
  z <> 0 -> PyFloat.of_int z = Return f -> (f =? 0)%float = false.
Proof.
  intros Hz Hf. destruct (of_int_returns_nonzero z f Hz Hf) as (m & e & H).
  rewrite FloatAxioms.eqb_spec, H. now destruct (z <? 0).
Qed.

Lemma of_int_fits z :
  Z.abs z < 2 ^ 1023 -> exists f, PyFloat.of_int z = Return f.
Proof.
  intros Hz. destruct z as [|p|p].
  - eexists; reflexivity.
  - apply of_int_small_returns. lia.
  - destruct (of_int_small_returns (Zpos p) ltac:(lia)) as [f Hf].
    revert Hf. unfold PyFloat.of_int, PyFloat.of_int_sf.
    rewrite binary_normalize_neg.
    destruct (binary_normalize prec emax (Zpos p) 0 false);
      cbn [SFopp]; try discriminate; eauto.
Qed.

(** The quotient of two ints is at most the numerator in magnitude, so it
    fits whenever the numerator is below [2^1023]. *)
Lemma SFdiv_ints_not_infinite sa pa sb pb s' :
  Zpos pa < 2 ^ 1023 ->
  SFdiv prec emax (S754_finite sa pa 0) (S754_finite sb pb 0)
  <> S754_infinity s'.
Proof.
  intros Ha. unfold SFdiv, SFdiv_core_binary.
  rewrite fexp_eq. cbn [Zdigits2].
  pose proof (digits2_pos_bounds pa) as [Hlo1 Hhi1].
  pose proof (digits2_pos_bounds pb) as [Hlo2 Hhi2].
  set (d1 := Zpos (digits2_pos pa)) in *.
  set (d2 := Zpos (digits2_pos pb)) in *.
  assert (Hd1 : 0 < d1 <= 1023).
  { split; [unfold d1; lia|].
    assert (d1 - 1 < 1023); [|lia].
    apply (Z.pow_lt_mono_r_iff 2); lia. }
  assert (Hd2 : 0 < d2) by (unfold d2; lia).
  set (e' := Z.min (Z.max (d1 + 0 - (d2 + 0) - 53) (-1074)) (0 - 0)).
  assert (He' : e' <= 0) by (unfold e'; lia).
  replace (0 - 0 - e') with (- e') by lia.
  set (m' := match - e' with
             | 0 => Zpos pa
             | Zpos _ => Z.shiftl (Zpos pa) (- e')
             | Zneg _ => 0
             end).
  assert (Hm' : 0 <= m' < 2 ^ (d1 - e')).
  { unfold m'. destruct (- e') as [|q|q] eqn:Hq; try lia.
    - replace (d1 - e') with d1 by lia. lia.
    - rewrite Z.shiftl_mul_pow2 by lia. rewrite <- Hq.
      replace (d1 - e') with (d1 + - e') by lia.
      rewrite Z.pow_add_r by lia.
      assert (0 < 2 ^ (- e')) by (apply Z.pow_pos_nonneg; lia).
      split; [lia|]. apply Z.mul_lt_mono_pos_r; lia. }
  pose proof (Z.div_pos m' (Zpos pb) ltac:(lia) ltac:(lia)) as Hq0.
  set (k := Z.max 0 (d1 - e' - d2 + 1)).
  assert (Hq : m' / Zpos pb < 2 ^ k).
  { apply Z.div_lt_upper_bound; [lia|].
    eapply Z.lt_le_trans; [apply Hm'|].
    eapply Z.le_trans;
      [|apply Z.mul_le_mono_nonneg_r; [apply Z.pow_nonneg; lia|exact Hlo2]].
    rewrite <- Z.pow_add_r by lia. apply Z.pow_le_mono_r; lia. }
  unfold Z.div in Hq0, Hq.
  destruct (Z.div_eucl m' (Zpos pb)) as [q r]. cbn [fst] in Hq0, Hq.
  apply binary_round_aux_not_infinite; [exact Hq0|lia|].
  pose proof (Zdigits2_le q k ltac:(lia) ltac:(lia)). unfold k, e' in *. lia.
Qed.

Lemma int_truediv_fits a b :
  b <> 0 -> Z.abs a < 2 ^ 1023 ->
  exists q, PyNum.int_truediv a b = Return q.
Proof.
  intros Hb Ha. unfold PyNum.int_truediv.
  destruct (Z.eqb_spec b 0); [contradiction|].
  destruct (Z.eqb_spec a 0); [eauto|].
  assert (Hpa : Zpos (Z.to_pos (Z.abs a)) < 2 ^ 1023)
    by (rewrite Z2Pos.id; lia).
  pose proof (fun s' => SFdiv_ints_not_infinite (a <? 0) (Z.to_pos (Z.abs a))
                          (b <? 0) (Z.to_pos (Z.abs b)) s' Hpa) as Hni.
  destruct (SFdiv prec emax _ _) as [s|s| |s m e]; eauto.
  exfalso. exact (Hni s eq_refl).
Qed.

Lemma int_truediv_raises a b e :
  b <> 0 -> PyNum.int_truediv a b = Raise e ->
  e = OverflowError "integer division result too large for a float".
Proof.
  intros Hb. unfold PyNum.int_truediv.
  destruct (Z.eqb_spec b 0); [contradiction|].
  destruct (a =? 0); [discriminate|].
  destruct (SFdiv prec emax _ _); congruence.
Qed.

End NumberFacts.

Section ApproverFacts.
Import LoanApprover.

Lemma ge_int_min_income x :
  PyFloat.ge_int x (min_income init) = (30000 <=? x)%float.
Proof. reflexivity. Qed.

Lemma ge_int_twice_min_income x :
  PyFloat.ge_int x (2 * min_income init) = (60000 <=? x)%float.
Proof. reflexivity. Qed.

Lemma half_max_debt_ratio : (max_debt_ratio init / 2 = 0.2)%float.
Proof. reflexivity. Qed.

Lemma debt_ratio_returns inc debt :
  debt_ratio inc debt = Return (spec_debtRatio inc debt).
Proof.
  unfold debt_ratio, spec_debtRatio, PyFloat.eq_zero, PyFloat.truediv.
  destruct (inc =? 0)%float; reflexivity.
Qed.

Lemma approve_loan_decide cs inc debt emp :
  approve_loan init cs inc debt emp
  = Return (Decision_str (spec_decide cs inc debt emp)).
Proof.
  unfold approve_loan, spec_decide.
  rewrite debt_ratio_returns; cbn [bind].
  rewrite ge_int_min_income, ge_int_twice_min_income, half_max_debt_ratio.
  cbn [min_credit_score max_debt_ratio init].
  destruct emp; cbn [negb]; [|reflexivity].
  destruct (750 <=? cs); [destruct (_ <=? _)%float; reflexivity|].
  destruct (650 <=? cs); destruct (_ && _); reflexivity.
Qed.

End ApproverFacts.

Section ManagerFacts.
Import PyDict LoanManager.

Lemma contains_LOAN_PERIODS book_type :
  contains LOAN_PERIODS book_type = true <-> known_category book_type.
Proof.
  unfold known_category, contains, LOAN_PERIODS.
  destruct (decide (book_type = REGULAR_BOOK)) as [->|H1];
    [split; [exists Regular|]; reflexivity|].
  destruct (decide (book_type = POPULAR_BOOK)) as [->|H2];
    [split; [exists Popular|]; reflexivity|].
  destruct (decide (book_type = REFERENCE_BOOK)) as [->|H3];
    [split; [exists Reference|]; reflexivity|].
  rewrite !lookup_insert_ne, lookup_singleton_ne by congruence.
  split; [discriminate|]. intros [[] ->]; contradiction.
Qed.

Lemma contains_MAX_BOOKS user_type :
  contains MAX_BOOKS user_type = true <-> known_tier user_type.
Proof.
  unfold known_tier, contains, MAX_BOOKS.
  destruct (decide (user_type = REGULAR_USER)) as [->|H1];
    [split; [exists RegularUser|]; reflexivity|].
  destruct (decide (user_type = PREMIUM_USER)) as [->|H2];
    [split; [exists Premium|]; reflexivity|].
  destruct (decide (user_type = RESEARCHER_USER)) as [->|H3];
    [split; [exists Researcher|]; reflexivity|].
  rewrite !lookup_insert_ne, lookup_singleton_ne by congruence.
  split; [discriminate|]. intros [[] ->]; contradiction.
Qed.

Lemma unknown_category_not_contained book_type :
  ~ known_category book_type -> contains LOAN_PERIODS book_type = false.
Proof.
  intros H. destruct (contains LOAN_PERIODS book_type) eqn:E; [|reflexivity].
  apply contains_LOAN_PERIODS in E. contradiction.
Qed.

Lemma unknown_tier_not_contained user_type :
  ~ known_tier user_type -> contains MAX_BOOKS user_type = false.
Proof.
  intros H. destruct (contains MAX_BOOKS user_type) eqn:E; [|reflexivity].
  apply contains_MAX_BOOKS in E. contradiction.
Qed.

(** Lookups of a known category succeed and agree with the
    specification's table. *)
Lemma contains_category c : contains LOAN_PERIODS (category_tag c) = true.
Proof. destruct c; reflexivity. Qed.

Lemma getitem_period c :
  getitem LOAN_PERIODS (category_tag c)
  = Return {[ "min" := minDays c; "max" := maxDays c ]}.
Proof. destruct c; reflexivity. Qed.

Lemma getitem_min (mn mx : Z) :
  getitem ({[ "min" := mn; "max" := mx ]} : gmap string Z) "min" = Return mn.
Proof. reflexivity. Qed.

Lemma getitem_max (mn mx : Z) :
  getitem ({[ "min" := mn; "max" := mx ]} : gmap string Z) "max" = Return mx.
Proof. reflexivity. Qed.

Lemma contains_tier t : contains MAX_BOOKS (tier_tag t) = true.
Proof. destruct t; reflexivity. Qed.

Lemma getitem_max_books t :
  getitem MAX_BOOKS (tier_tag t) = Return (maxItems t).
Proof. destruct t; reflexivity. Qed.

Lemma validate_loan_days_known c loan_days :
  validate_loan_days (category_tag c) loan_days
  = Return ((minDays c <=? loan_days) && (loan_days <=? maxDays c)).
Proof.
  unfold validate_loan_days.
  rewrite contains_category, getitem_period. cbn [negb bind].
  rewrite getitem_min, getitem_max. cbn [bind].
  rewrite Z.gtb_ltb.
  destruct (Z.ltb_spec loan_days (minDays c)),
           (Z.ltb_spec (maxDays c) loan_days),
           (Z.leb_spec (minDays c) loan_days),
           (Z.leb_spec loan_days (maxDays c));
    cbn; try reflexivity; lia.
Qed.

Lemma validate_loan_days_unknown book_type loan_days :
  ~ known_category book_type ->
  validate_loan_days book_type loan_days
  = Raise (ValueError ("Unknown book type: " ++ book_type)).
Proof.
  intros H. unfold validate_loan_days.
  rewrite (unknown_category_not_contained _ H). reflexivity.
Qed.

End ManagerFacts.

(** * Loan approval *)

Section ApprovalClaims.
Import LoanApprover.

Lemma Decision_str_is_decision d : is_decision (Decision_str d).
Proof. destruct d; cbv; auto. Qed.


Lemma Decision_str_inj d1 d2 : Decision_str d1 = Decision_str d2 -> d1 = d2.
Proof. destruct d1, d2; cbv; congruence. Qed.



(** C5: when [annual_income] is exactly zero the debt ratio is plus
    infinity, also when [existing_debt] is zero, and the application is
    then never approved, whatever the credit score: in particular not with
    a positive debt on the high-score branch. *)
Theorem zero_income_infinite_ratio :
  forall cs inc debt emp,
    (inc =? 0)%float = true ->
    debt_ratio inc debt = Return infinity
    /\ debt_ratio inc 0 = Return infinity
    /\ approve_loan init cs inc debt emp <> Return "Approved".
Proof.
  intros cs inc debt emp H0.
  assert (Hr : forall d, debt_ratio inc d = Return infinity).
  { intros d. unfold debt_ratio, PyFloat.eq_zero. now rewrite H0. }
  split; [apply Hr|]. split; [apply Hr|].
  unfold approve_loan. rewrite Hr; cbn [bind].
  change (infinity <=? max_debt_ratio init)%float with false.
  change (infinity <=? max_debt_ratio init / 2)%float with false.
  rewrite !andb_false_r.
  destruct (negb emp), (750 <=? cs), (min_credit_score init <=? cs);
    discriminate.
Qed.

Lemma zero_income_infinite_ratio_witness :
  debt_ratio 0 5000 = Return infinity
  /\ debt_ratio 0 0 = Return infinity
  /\ approve_loan init 780 0 5000 true <> Return "Approved".
Proof. apply (zero_income_infinite_ratio 780 0 5000 true). reflexivity. Defined.

Lemma approve_loan_float_total cs inc debt emp :
  (exists r, debt_ratio inc debt = Return r)
  /\ (exists s, approve_loan init cs inc debt emp = Return s
                /\ is_decision s)
  /\ ~ raises (approve_loan init cs inc debt emp).
Proof.
  split; [|split].
  - rewrite debt_ratio_returns. eauto.
  - rewrite approve_loan_decide.
    eexists; split; [reflexivity|apply Decision_str_is_decision].
  - rewrite approve_loan_decide. intros [e He]. discriminate.
Qed.

(** On two floats the method on numbers is the method on floats. *)
Lemma approve_loan_on_floats self cs inc debt emp :
  LoanApproverNum.approve_loan self cs (PyNum.Float inc) (PyNum.Float debt) emp
  = approve_loan self cs inc debt emp.
Proof. reflexivity. Qed.

(** Once the ratio is computed the call returns a decision; a failing
    division is passed on. *)
Lemma approve_loan_after_ratio cs inc debt emp :
  match LoanApproverNum.debt_ratio inc debt with
  | Return _ =>
    exists s, LoanApproverNum.approve_loan init cs inc debt emp = Return s
              /\ is_decision s
  | Raise e => LoanApproverNum.approve_loan init cs inc debt emp = Raise e
  end.
Proof.
  unfold LoanApproverNum.approve_loan.
  destruct (LoanApproverNum.debt_ratio inc debt) as [r|e]; cbn [bind];
    [|reflexivity].
  destruct (negb emp); [eexists; split; [reflexivity|cbv; auto]|].
  destruct (750 <=? cs);
    [destruct (_ <=? _)%float; eexists; (split; [reflexivity|cbv; auto])|].
  destruct (min_credit_score init <=? cs); destruct (_ && _);
    eexists; (split; [reflexivity|cbv; auto]).
Qed.

(** The guarded division raises nothing but [OverflowError]. *)
Lemma debt_ratio_raises inc debt e :
  LoanApproverNum.debt_ratio inc debt = Raise e ->
  exists msg, e = OverflowError msg.
Proof.
  unfold LoanApproverNum.debt_ratio.
  destruct (PyNum.eq_zero inc) eqn:E0; [discriminate|].
  destruct debt as [m|x], inc as [n|y]; cbn [PyNum.truediv PyNum.eq_zero] in *.
  - intros H. apply int_truediv_raises in H; [eauto|].
    intros ->. discriminate.
  - destruct (of_int_cases m) as [[x Hx]|Hx]; rewrite Hx; cbn [bind].
    + unfold PyFloat.truediv, PyFloat.eq_zero in *. now rewrite E0.
    + intros [= <-]. eauto.
  - destruct (of_int_cases n) as [[y Hy]|Hy]; rewrite Hy; cbn [bind].
    + unfold PyFloat.truediv.
      rewrite (of_int_nonzero n y); [discriminate| |exact Hy].
      intros ->. discriminate.
    + intros [= <-]. eauto.
  - unfold PyFloat.truediv, PyFloat.eq_zero in *. now rewrite E0.
Qed.

(** Within the floats the guarded division returns. *)
Lemma debt_ratio_fits inc debt :
  fits_float inc -> fits_float debt ->
  exists r, LoanApproverNum.debt_ratio inc debt = Return r.
Proof.
  intros Hi Hd. unfold LoanApproverNum.debt_ratio.
  destruct (PyNum.eq_zero inc) eqn:E0; [eauto|].
  destruct debt as [m|x], inc as [n|y];
    cbn [PyNum.truediv PyNum.eq_zero fits_float] in *.
  - apply int_truediv_fits; [|exact Hd]. intros ->. discriminate.
  - destruct (of_int_fits m Hd) as [x Hx]. rewrite Hx; cbn [bind].
    unfold PyFloat.truediv, PyFloat.eq_zero in *. rewrite E0. eauto.
  - destruct (of_int_fits n Hi) as [y Hy]. rewrite Hy; cbn [bind].
    unfold PyFloat.truediv.
    rewrite (of_int_nonzero n y); [eauto| |exact Hy].
    intros ->. discriminate.
  - unfold PyFloat.truediv, PyFloat.eq_zero in *. rewrite E0. eauto.
Qed.

(** C6, as stated, fails: income and debt may be Python ints (the tests
    pass ints), and an int debt too large for a float makes the division
    raise [OverflowError], so no decision is produced. *)
Lemma approve_loan_huge_int_debt_raises :
  LoanApproverNum.approve_loan init 750 (PyNum.Int 1) (PyNum.Int (10 ^ 400)) true
  = Raise (OverflowError "integer division result too large for a float")
  /\ LoanApproverNum.approve_loan init 750 (PyNum.Float 1) (PyNum.Int (10 ^ 400))
       true
     = Raise (OverflowError "int too large to convert to float")
  /\ ~ (forall cs inc debt emp,
          exists s, LoanApproverNum.approve_loan init cs inc debt emp = Return s
                    /\ is_decision s).
Proof.
  split; [vm_compute; reflexivity|]. split; [vm_compute; reflexivity|].
  intros H.
  destruct (H 750 (PyNum.Int 1) (PyNum.Int (10 ^ 400)) true) as (s & Hs & _).
  vm_compute in Hs. discriminate.
Qed.

(** C6, amended: on the documented types [approve_loan] is total and
    raises nothing: for every int credit score and every float income and
    debt, infinities and NaN included, the guarded division returns and
    the call returns one of the three decision strings.  The same holds
    when income or debt is an int below [2^1023] in magnitude.  With
    larger ints the only possible failure is the [OverflowError] of the
    division: no call raises [ZeroDivisionError], [ValueError] or any
    other error. *)
Theorem approve_loan_total_within_floats :
  (forall cs inc debt emp,
      LoanApproverNum.approve_loan init cs (PyNum.Float inc) (PyNum.Float debt)
        emp
      = approve_loan init cs inc debt emp
      /\ (exists r, debt_ratio inc debt = Return r)
      /\ (exists s, approve_loan init cs inc debt emp = Return s
                    /\ is_decision s)
      /\ ~ raises (approve_loan init cs inc debt emp))
  /\ (forall cs inc debt emp,
         fits_float inc -> fits_float debt ->
         exists s, LoanApproverNum.approve_loan init cs inc debt emp = Return s
                   /\ is_decision s)
  /\ (forall cs inc debt emp e,
         LoanApproverNum.approve_loan init cs inc debt emp = Raise e ->
         exists msg, e = OverflowError msg).
Proof.
  split; [|split].
  - intros cs inc debt emp.
    split; [apply approve_loan_on_floats|apply approve_loan_float_total].
  - intros cs inc debt emp Hi Hd.
    pose proof (approve_loan_after_ratio cs inc debt emp) as H.
    destruct (debt_ratio_fits inc debt Hi Hd) as [r Hr].
    now rewrite Hr in H.
  - intros cs inc debt emp e He.
    pose proof (approve_loan_after_ratio cs inc debt emp) as H.
    destruct (LoanApproverNum.debt_ratio inc debt) as [r|e'] eqn:Hr.
    + destruct H as (s & Hs & _). congruence.
    + assert (e' = e) by congruence. subst e'.
      exact (debt_ratio_raises inc debt e Hr).
Qed.

Lemma approve_loan_total_within_floats_witness :
  (exists s,
      LoanApproverNum.approve_loan init 780 (PyNum.Int 50000) (PyNum.Float 15000)
        true = Return s
      /\ is_decision s)
  /\ exists msg,
       OverflowError "integer division result too large for a float"
       = OverflowError msg.
Proof.
  destruct approve_loan_total_within_floats as (_ & Hfit & Hraise). split.
  - apply (Hfit 780 (PyNum.Int 50000) (PyNum.Float 15000) true);
      cbn; [reflexivity|exact I].
  - apply (Hraise 750 (PyNum.Int 1) (PyNum.Int (10 ^ 400)) true).
    vm_compute. reflexivity.
Defined.

(** C10: a negative income makes the debt ratio negative, so it passes the
    ratio threshold whatever the debt: with a score of at least 750 an
    employed applicant with negative income is approved for every
    positive finite debt, for example with income -1 and debt 1000000. *)
Theorem negative_income_approved :
  (forall cs inc debt,
      750 <= cs ->
      (inc <? 0)%float = true ->
      (0 <? debt)%float = true -> (debt <? infinity)%float = true ->
      approve_loan init cs inc debt true = Return "Approved")
  /\ (forall cs,
         750 <= cs ->
         approve_loan init cs (-1) 1000000 true = Return "Approved")
  /\ debt_ratio (-1) 1000000 = Return (-1000000)%float.
Proof.
  assert (Hgen : forall cs inc debt,
             750 <= cs ->
             (inc <? 0)%float = true ->
             (0 <? debt)%float = true -> (debt <? infinity)%float = true ->
             approve_loan init cs inc debt true = Return "Approved").
  { intros cs inc debt Hcs Hinc Hpos Hfin.
    unfold approve_loan, debt_ratio, PyFloat.eq_zero, PyFloat.truediv.
    rewrite (negative_not_zero inc Hinc). cbn [bind negb].
    destruct (Z.leb_spec 750 cs); [|lia].
    cbn [max_debt_ratio init].
    now rewrite (div_by_negative_leb debt inc 0.4%float
                   7205759403792794%positive (-54) Hpos Hfin Hinc eq_refl). }
  split; [exact Hgen|]. split; [|reflexivity].
  intros cs Hcs. apply Hgen; [assumption|reflexivity..].
Qed.

Lemma negative_income_approved_witness :
  approve_loan init 750 (-1) 1000000 true = Return "Approved"
  /\ approve_loan init 800 (-30000) 0x1p+1000 true = Return "Approved".
Proof.
  destruct negative_income_approved as (Hgen & Hex & _). split.
  - apply (Hex 750). lia.
  - apply (Hgen 800 (-30000)%float 0x1p+1000%float); [lia|reflexivity..].
Defined.

End ApprovalClaims.

(** * Library loans *)

Section LoanDaysClaims.
Import PyDict LoanManager.

(** C7: [validate_loan_days] raises (the [ValueError] for an unknown book
    type) exactly when the category is none of the three known ones;
    for a known category it returns [true] exactly when the requested days
    lie between [minDays] and [maxDays] inclusive, the table being
    14-30, 7-14 and 1-3; so it is true at both bounds and false one day
    outside them. *)
Theorem validate_loan_days_range :
  (forall bt d,
      validate_loan_days bt d
      = Raise (ValueError ("Unknown book type: " ++ bt))
      <-> ~ known_category bt)
  /\ (forall bt d, raises (validate_loan_days bt d) <-> ~ known_category bt)
  /\ (forall c d, exists b,
         validate_loan_days (category_tag c) d = Return b
         /\ (b = true <-> minDays c <= d <= maxDays c))
  /\ (forall c,
         getitem LOAN_PERIODS (category_tag c)
         = Return {[ "min" := minDays c; "max" := maxDays c ]})
  /\ (minDays Regular, maxDays Regular) = (14, 30)
  /\ (minDays Popular, maxDays Popular) = (7, 14)
  /\ (minDays Reference, maxDays Reference) = (1, 3)
  /\ (forall c,
         validate_loan_days (category_tag c) (minDays c) = Return true
         /\ validate_loan_days (category_tag c) (maxDays c) = Return true
         /\ validate_loan_days (category_tag c) (minDays c - 1) = Return false
         /\ validate_loan_days (category_tag c) (maxDays c + 1) = Return false).
Proof.
  assert (Hraise : forall bt d,
             raises (validate_loan_days bt d) <-> ~ known_category bt).
  { intros bt d. split.
    - intros [e He] [c ->]. rewrite validate_loan_days_known in He.
      discriminate.
    - intros H. rewrite validate_loan_days_unknown by assumption.
      eexists; reflexivity. }
  split; [|split; [exact Hraise|]].
  - intros bt d. split.
    + intros H. apply (Hraise bt d). eexists; exact H.
    + apply validate_loan_days_unknown.
  - split; [|split; [exact getitem_period|]].
    + intros c d. rewrite validate_loan_days_known.
      eexists; split; [reflexivity|].
      rewrite andb_true_iff, !Z.leb_le. reflexivity.
    + repeat (split; [reflexivity|]).
      intros c. rewrite !validate_loan_days_known.
      destruct c; repeat split; reflexivity.
Qed.

End LoanDaysClaims.

Section QuantityClaims.
Import PyDict LoanManager.

Lemma validate_book_quantity_known t cb ab :
  0 <= cb -> 0 < ab ->
  validate_book_quantity (tier_tag t) cb ab
  = Return (cb + ab <=? maxItems t).
Proof.
  intros Hcb Hab. unfold validate_book_quantity.
  rewrite contains_tier, getitem_max_books. cbn [negb bind].
  destruct (Z.ltb_spec cb 0); [lia|].
  destruct (Z.leb_spec ab 0); [lia|].
  rewrite Z.gtb_ltb.
  destruct (Z.ltb_spec (maxItems t) (cb + ab)),
           (Z.leb_spec (cb + ab) (maxItems t)); try reflexivity; lia.
Qed.

Lemma validate_book_quantity_invalid ut cb ab :
  ~ known_tier ut \/ cb < 0 \/ ab <= 0 ->
  exists msg, validate_book_quantity ut cb ab = Raise (ValueError msg).
Proof.
  intros H. unfold validate_book_quantity.
  destruct (contains MAX_BOOKS ut) eqn:E; cbn [negb]; [|eauto].
  destruct (Z.ltb_spec cb 0); [eauto|].
  destruct (Z.leb_spec ab 0); [eauto|].
  apply contains_MAX_BOOKS in E. destruct H as [H|[H|H]]; [tauto|lia|lia].
Qed.

Lemma quantity_args_dec ut cb ab :
  (~ known_tier ut \/ cb < 0 \/ ab <= 0)
  \/ ~ (~ known_tier ut \/ cb < 0 \/ ab <= 0).
Proof.
  destruct (contains MAX_BOOKS ut) eqn:E.
  - apply contains_MAX_BOOKS in E.
    destruct (Z.ltb_spec cb 0); [left; lia|].
    destruct (Z.leb_spec ab 0); [left; lia|].
    right. intros [?|[?|?]]; [tauto|lia|lia].
  - left. left. intros K. apply contains_MAX_BOOKS in K. congruence.
Qed.

(** C8: [validate_book_quantity] raises, always a [ValueError], exactly
    when the tier is unknown, [current_borrowed] is negative or
    [additional_books] is not positive; on valid arguments it returns
    [true] exactly when the sum is at most [maxItems], the table being 5,
    10 and 15; so a sum equal to [maxItems] gives [true] and one more
    gives [false]. *)
Theorem validate_book_quantity_limit :
  (forall ut cb ab,
      raises (validate_book_quantity ut cb ab)
      <-> (~ known_tier ut \/ cb < 0 \/ ab <= 0))
  /\ (forall ut cb ab e,
         validate_book_quantity ut cb ab = Raise e ->
         exists msg, e = ValueError msg)
  /\ (forall t cb ab,
         0 <= cb -> 0 < ab ->
         exists b, validate_book_quantity (tier_tag t) cb ab = Return b
                   /\ (b = true <-> cb + ab <= maxItems t))
  /\ (forall t, getitem MAX_BOOKS (tier_tag t) = Return (maxItems t))
  /\ (maxItems RegularUser, maxItems Premium, maxItems Researcher)
     = (5, 10, 15)
  /\ (forall t cb ab,
         0 <= cb -> 0 < ab -> cb + ab = maxItems t ->
         validate_book_quantity (tier_tag t) cb ab = Return true)
  /\ (forall t cb ab,
         0 <= cb -> 0 < ab -> cb + ab = maxItems t + 1 ->
         validate_book_quantity (tier_tag t) cb ab = Return false).
Proof.
  assert (Hvalid : forall ut cb ab,
             ~ (~ known_tier ut \/ cb < 0 \/ ab <= 0) ->
             exists t, ut = tier_tag t /\ 0 <= cb /\ 0 < ab).
  { intros ut cb ab H.
    destruct (contains MAX_BOOKS ut) eqn:E.
    - apply contains_MAX_BOOKS in E. destruct E as [t ->].
      exists t. repeat split; lia.
    - exfalso. apply H. left. intros K.
      apply contains_MAX_BOOKS in K. congruence. }
  repeat split.
  - intros [e He].
    destruct (quantity_args_dec ut cb ab) as [Hinv|Hok]; [exact Hinv|].
    destruct (Hvalid _ _ _ Hok) as (t & -> & Hcb & Hab).
    rewrite validate_book_quantity_known in He by assumption. discriminate.
  - intros H. destruct (validate_book_quantity_invalid _ _ _ H) as [msg E].
    eexists; exact E.
  - intros ut cb ab e He.
    destruct (quantity_args_dec ut cb ab) as [Hinv|Hok].
    + destruct (validate_book_quantity_invalid _ _ _ Hinv) as [msg E].
      exists msg. congruence.
    + destruct (Hvalid _ _ _ Hok) as (t & -> & Hcb & Hab).
      rewrite validate_book_quantity_known in He by assumption.
      discriminate.
  - intros t cb ab Hcb Hab. rewrite validate_book_quantity_known by assumption.
    eexists; split; [reflexivity|]. apply Z.leb_le.
  - apply getitem_max_books.
  - intros t cb ab Hcb Hab Hsum.
    rewrite validate_book_quantity_known by assumption.
    f_equal. apply Z.leb_le. lia.
  - intros t cb ab Hcb Hab Hsum.
    rewrite validate_book_quantity_known by assumption.
    f_equal. apply Z.leb_gt. lia.
Qed.

Lemma validate_book_quantity_limit_witness :
  validate_book_quantity "premium" 7 3 = Return true
  /\ validate_book_quantity "premium" 7 4 = Return false
  /\ raises (validate_book_quantity "premium" (-1) 1).
Proof.
  destruct validate_book_quantity_limit as (Hr & _ & _ & _ & _ & Heq & Hsucc).
  split; [|split].
  - apply (Heq Premium 7 3); reflexivity || lia.
  - apply (Hsucc Premium 7 4); reflexivity || lia.
  - apply (Hr "premium" (-1) 1). right; left; lia.
Defined.

End QuantityClaims.

Section RenewalClaims.
Import PyDict LoanManager.

Lemma can_renew_loan_invalid bt d r p req :
  ~ known_category bt \/ d < 0 \/ r <= 0 \/ p < 0 ->
  exists msg, can_renew_loan bt d r p req = Raise (ValueError msg).
Proof.
  intros H. unfold can_renew_loan.
  destruct (contains LOAN_PERIODS bt) eqn:E; cbn [negb]; [|eauto].
  destruct (Z.ltb_spec d 0); [eauto|].
  destruct (Z.leb_spec r 0); [eauto|].
  destruct (Z.ltb_spec p 0); [eauto|].
  apply contains_LOAN_PERIODS in E. destruct H as [H|[H|[H|H]]]; [tauto|lia..].
Qed.

(** C2, as stated, fails: the argument checks run before the veto, so a
    requested book with an unknown category, or with a negative day count,
    raises instead of returning [false]. *)
Lemma can_renew_requested_invalid_raises :
  can_renew_loan "magazine" 5 5 0 true
  = Raise (ValueError "Unknown book type: magazine")
  /\ can_renew_loan "regular" (-1) 5 0 true
     = Raise (ValueError "Days already loaned cannot be negative")
  /\ can_renew_loan "regular" 5 0 0 true
     = Raise (ValueError "Renewal days must be positive")
  /\ can_renew_loan "regular" 5 5 (-1) true
     = Raise (ValueError "Previous renewals cannot be negative")
  /\ ~ (forall bt d r p, can_renew_loan bt d r p true = Return false).
Proof.
  repeat (split; [reflexivity|]).
  intros H. specialize (H "magazine" 5 5 0). discriminate.
Qed.

(** C2, amended: for a known category and valid counts (days already
    loaned not negative, renewal days positive, previous renewals not
    negative) a requested book is never renewed, whatever the counts; with
    an invalid argument the call raises [ValueError], requested or not. *)
Theorem can_renew_requested_veto :
  (forall c d r p,
      0 <= d -> 0 < r -> 0 <= p ->
      can_renew_loan (category_tag c) d r p true = Return false)
  /\ (forall bt d r p req,
         ~ known_category bt \/ d < 0 \/ r <= 0 \/ p < 0 ->
         exists msg, can_renew_loan bt d r p req = Raise (ValueError msg)).
Proof.
  split; [|exact can_renew_loan_invalid].
  intros c d r p Hd Hr Hp. unfold can_renew_loan.
  rewrite contains_category. cbn [negb].
  destruct (Z.ltb_spec d 0); [lia|].
  destruct (Z.leb_spec r 0); [lia|].
  destruct (Z.ltb_spec p 0); [lia|].
  reflexivity.
Qed.

Lemma can_renew_requested_veto_witness :
  can_renew_loan "regular" 15 5 0 true = Return false
  /\ exists msg, can_renew_loan "magazine" 15 5 0 true = Raise (ValueError msg).
Proof.
  destruct can_renew_requested_veto as [Hveto Hraise]. split.
  - apply (Hveto Regular 15 5 0); lia.
  - apply (Hraise "magazine" 15 5 0 true). left. intros [[] H]; discriminate.
Defined.

End RenewalClaims.

Section DueDateClaims.
Import LoanManager PyDatetime.

(** C9, as stated, fails: one day after the last representable date does
    not exist, and the addition raises [OverflowError] on a valid datetime
    and a positive day count; so does a day count of ten digits. *)
Lemma calculate_due_date_overflows :
  valid PyDatetime.last_day
  /\ 0 < 1
  /\ calculate_due_date (Datetime PyDatetime.last_day) 1
     = Raise (OverflowError "date value out of range")
  /\ calculate_due_date (Datetime {| ordinal := 1; microsecond_of_day := 0 |})
                        1000000000
     = Raise (OverflowError
                "days=1000000000; must have magnitude <= 999999999")
  /\ ~ (forall d n, valid d -> 0 < n ->
                    ~ raises (calculate_due_date (Datetime d) n)).
Proof.
  assert (Hv : valid PyDatetime.last_day) by (cbv; repeat split; congruence).
  split; [exact Hv|]. split; [lia|].
  split; [reflexivity|]. split; [reflexivity|].
  intros H. apply (H PyDatetime.last_day 1 Hv); [lia|]. eexists; reflexivity.
Qed.

(** C9, amended: [calculate_due_date] raises when the loan date is not a
    datetime ([TypeError]) or the day count is not positive
    ([ValueError]); for a valid datetime and a positive day count whose
    sum stays within the last representable day it raises nothing and
    returns the loan date moved by exactly that many days, time of day
    unchanged; past that day it raises [OverflowError]. *)
Theorem calculate_due_date_offset :
  (forall o n,
      as_datetime o = None ->
      calculate_due_date o n
      = Raise (TypeError "Loan date must be a datetime object"))
  /\ (forall d n,
         n <= 0 ->
         calculate_due_date (Datetime d) n
         = Raise (ValueError "Loan days must be positive"))
  /\ (forall d n,
         valid d -> 0 < n -> ordinal d + n <= MAXORDINAL ->
         calculate_due_date (Datetime d) n
         = Return {| ordinal := ordinal d + n;
                     microsecond_of_day := microsecond_of_day d |}
         /\ valid {| ordinal := ordinal d + n;
                     microsecond_of_day := microsecond_of_day d |})
  /\ (forall d n,
         valid d -> 0 < n -> MAXORDINAL < ordinal d + n ->
         exists msg,
           calculate_due_date (Datetime d) n = Raise (OverflowError msg)).
Proof.
  repeat split.
  - intros o n H. unfold calculate_due_date. now rewrite H.
  - intros d n H. unfold calculate_due_date; cbn [as_datetime].
    destruct (Z.leb_spec n 0); [reflexivity|lia].
  - destruct H as [[Hlo Hhi] _]. unfold MINORDINAL, MAXORDINAL in *.
    unfold calculate_due_date; cbn [as_datetime].
    destruct (Z.leb_spec n 0); [lia|].
    unfold timedelta_days.
    destruct (Z.leb_spec (Z.abs n) 999999999); [|lia]. cbn [bind].
    unfold add, MINORDINAL, MAXORDINAL.
    destruct (Z.leb_spec 1 (ordinal d + n)); [|lia].
    destruct (Z.leb_spec (ordinal d + n) 3652059); [|lia].
    reflexivity.
  - cbn. destruct H as [[Hlo Hhi] _]. lia.
  - cbn. assumption.
  - cbn. destruct H as [_ [Hlo Hhi]]. lia.
  - cbn. destruct H as [_ [Hlo Hhi]]. lia.
  - intros d n [[Hlo Hhi] _] Hn Hover. unfold MINORDINAL, MAXORDINAL in *.
    unfold calculate_due_date; cbn [as_datetime].
    destruct (Z.leb_spec n 0); [lia|].
    unfold timedelta_days.
    destruct (Z.leb_spec (Z.abs n) 999999999);
    [|destruct (_ && _); eexists; reflexivity].
    cbn [bind]. unfold add, MINORDINAL, MAXORDINAL.
    destruct (Z.leb_spec (ordinal d + n) 3652059); [lia|].
    rewrite andb_false_r. eexists; reflexivity.
Qed.

Lemma calculate_due_date_offset_witness :
  calculate_due_date
    (Datetime {| ordinal := 739000; microsecond_of_day := 43200000000 |}) 14
  = Return {| ordinal := 739014; microsecond_of_day := 43200000000 |}
  /\ calculate_due_date (Str "2024-01-01") 14
     = Raise (TypeError "Loan date must be a datetime object").
Proof.
  destruct calculate_due_date_offset as (Hty & _ & Hok & _). split.
  - apply (Hok {| ordinal := 739000; microsecond_of_day := 43200000000 |} 14);
      cbv; repeat split; congruence.
  - apply (Hty (Str "2024-01-01") 14). reflexivity.
Defined.

End DueDateClaims.

Section FineClaims.
Import PyDict LoanManager.

Lemma getitem_fine_rates c :
  getitem fine_rates (category_tag c) = Return (rate_float c).
Proof. destruct c; reflexivity. Qed.

Lemma mul_int_ten c : PyFloat.mul_int (rate_float c) 10 = Return (cap_float c).
Proof. destruct c; reflexivity. Qed.

Lemma calculate_fine_not_overdue z bt :
  z <= 0 -> calculate_fine z bt = Return 0.0%float.
Proof.
  intros H. unfold calculate_fine. destruct (Z.leb_spec z 0); [reflexivity|lia].
Qed.

Lemma calculate_fine_unknown z bt :
  0 < z -> ~ known_category bt ->
  calculate_fine z bt = Raise (ValueError ("Unknown book type: " ++ bt)).
Proof.
  intros Hz H. unfold calculate_fine.
  destruct (Z.leb_spec z 0); [lia|].
  rewrite (unknown_category_not_contained _ H). reflexivity.
Qed.

Lemma calculate_fine_known z c :
  0 < z ->
  calculate_fine z (category_tag c)
  = (let! fine := PyFloat.int_mul z (rate_float c) in
     Return (PyFloat.min fine (cap_float c))).
Proof.
  intros Hz. unfold calculate_fine.
  destruct (Z.leb_spec z 0); [lia|].
  rewrite contains_category, getitem_fine_rates. cbn [negb bind].
  rewrite mul_int_ten. reflexivity.
Qed.

(** From sixteen days on the product exceeds the cap: its exponent is
    larger. *)
Lemma min_capped z f c :
  16 <= z -> PyFloat.of_int z = Return f ->
  PyFloat.min (f * rate_float c) (cap_float c) = cap_float c.
Proof.
  intros Hz Hf.
  destruct (of_int_returns z f ltac:(lia) Hf) as (m & e & Hsf & Hm & He).
  assert (Hd : 5 <= Zdigits2 z).
  { pose proof (Zdigits2_bounds z ltac:(lia)) as [_ Hhi].
    assert (4 < Zdigits2 z); [|lia].
    apply (Z.pow_lt_mono_r_iff 2); [lia|apply Z.lt_le_incl, Zdigits2_pos; lia|].
    change (2 ^ 4) with 16. lia. }
  unfold PyFloat.min.
  assert (Hlt : (cap_float c <? f * rate_float c)%float = true);
    [|now rewrite Hlt].
  destruct c.
  - apply (ltb_smaller_exponent 5.0%float _ 5629499534213120%positive (-50) eq_refl).
    destruct (mul_normal_exponent f 0.5%float m e 4503599627370496%positive
                (-53) Hsf Hm eq_refl eq_refl ltac:(lia))
      as [(m2 & e2 & H & He2)|H]; [left; exists m2, e2; split; [exact H|lia]|].
    right; exact H.
  - apply (ltb_smaller_exponent 10.0%float _ 5629499534213120%positive (-49) eq_refl).
    destruct (mul_normal_exponent f 1.0%float m e 4503599627370496%positive
                (-52) Hsf Hm eq_refl eq_refl ltac:(lia))
      as [(m2 & e2 & H & He2)|H]; [left; exists m2, e2; split; [exact H|lia]|].
    right; exact H.
  - apply (ltb_smaller_exponent 20.0%float _ 5629499534213120%positive (-48) eq_refl).
    destruct (mul_normal_exponent f 2.0%float m e 4503599627370496%positive
                (-51) Hsf Hm eq_refl eq_refl ltac:(lia))
      as [(m2 & e2 & H & He2)|H]; [left; exists m2, e2; split; [exact H|lia]|].
    right; exact H.
Qed.

Lemma returns_spec_fine_sound z c :
  returns_spec_fine z c = true ->
  exists v,
    calculate_fine z (category_tag c) = Return v
    /\ has_value v (spec_fine z c).
Proof.
  unfold returns_spec_fine.
  destruct (calculate_fine z (category_tag c)) as [v|]; [|discriminate].
  destruct (float_value v) as [q|] eqn:Hq; [|discriminate].
  intros H. exists v. split; [reflexivity|].
  exists q. split; [exact Hq|]. now apply Qeq_bool_iff.
Qed.

(** Below sixteen days the calls are evaluated one by one. *)
Lemma returns_spec_fine_small z c :
  0 < z < 16 -> returns_spec_fine z c = true.
Proof.
  intros Hz.
  assert (H : z = 1 \/ z = 2 \/ z = 3 \/ z = 4 \/ z = 5 \/ z = 6 \/ z = 7
              \/ z = 8 \/ z = 9 \/ z = 10 \/ z = 11 \/ z = 12 \/ z = 13
              \/ z = 14 \/ z = 15) by lia.
  repeat (destruct H as [->|H]; [destruct c; vm_compute; reflexivity|]).
  subst z; destruct c; vm_compute; reflexivity.
Qed.

Lemma spec_fine_capped z c :
  10 <= z -> (spec_fine z c == 10 * dailyRate c)%Q.
Proof.
  intros Hz. unfold spec_fine. apply Q.min_r.
  apply Qmult_le_compat_r; [|destruct c; discriminate].
  change 10%Q with (inject_Z 10). now rewrite <- Zle_Qle.
Qed.

Lemma float_value_cap c :
  exists q, float_value (cap_float c) = Some q /\ (q == 10 * dailyRate c)%Q.
Proof. destruct c; eexists; (split; [vm_compute; reflexivity|reflexivity]). Qed.

Lemma calculate_fine_capped z c :
  16 <= z -> converts z ->
  calculate_fine z (category_tag c) = Return (cap_float c).
Proof.
  intros Hz [f Hf]. rewrite calculate_fine_known by lia.
  unfold PyFloat.int_mul. rewrite Hf. cbn [bind].
  now rewrite (min_capped z f c Hz Hf).
Qed.

Lemma returns_spec_fine_converts z c :
  0 < z -> converts z -> returns_spec_fine z c = true.
Proof.
  intros Hz Hc. destruct (Z.lt_ge_cases z 16) as [Hlt|Hge].
  - apply returns_spec_fine_small. lia.
  - unfold returns_spec_fine. rewrite (calculate_fine_capped z c Hge Hc).
    pose proof (spec_fine_capped z c ltac:(lia)) as Hq.
    destruct (float_value_cap c) as (q & H & Hq'). rewrite H.
    apply Qeq_bool_iff. rewrite Hq'. now symmetry.
Qed.

Lemma calculate_fine_overflow z c :
  0 < z -> ~ converts z ->
  calculate_fine z (category_tag c)
  = Raise (OverflowError "int too large to convert to float").
Proof.
  intros Hz Hc. rewrite calculate_fine_known by assumption.
  unfold PyFloat.int_mul.
  destruct (of_int_cases z) as [H|H]; [contradiction|now rewrite H].
Qed.

Lemma spec_fine_hundredths z c : exists n, (spec_fine z c == n # 100)%Q.
Proof.
  unfold spec_fine.
  destruct (Q.min_spec (inject_Z z * dailyRate c) (10 * dailyRate c))
    as [[_ H]|[_ H]].
  - destruct c; [exists (z * 50)|exists (z * 100)|exists (z * 200)];
      rewrite H; unfold Qeq; cbn; lia.
  - destruct c; [exists 500|exists 1000|exists 2000]; rewrite H; reflexivity.
Qed.

Lemma calculate_fine_two_decimals z c v :
  0 < z -> calculate_fine z (category_tag c) = Return v -> two_decimals v.
Proof.
  intros Hz Hv.
  assert (Hc : converts z).
  { destruct (of_int_cases z) as [H|H]; [exact H|].
    rewrite calculate_fine_known in Hv by assumption.
    unfold PyFloat.int_mul in Hv. rewrite H in Hv. discriminate. }
  destruct (returns_spec_fine_sound z c (returns_spec_fine_converts z c Hz Hc))
    as (v' & Hv' & q & Hq & Hs).
  assert (v' = v) by congruence. subst v'.
  destruct (spec_fine_hundredths z c) as [n Hn].
  exists n, q. split; [exact Hq|]. now rewrite Hs.
Qed.

(** The conversion stops fitting between [2^1024 - 2^970 - 1], which still
    rounds down to the largest float, and [2^1024 - 2^970]. *)
Lemma calculate_fine_conversion_edge :
  calculate_fine (2 ^ 1024 - 2 ^ 970 - 1) REGULAR_BOOK = Return 5.0%float
  /\ calculate_fine (2 ^ 1024 - 2 ^ 970) REGULAR_BOOK
     = Raise (OverflowError "int too large to convert to float").
Proof. split; vm_compute; reflexivity. Qed.

(** C3, as stated, fails: a day count too large for a float makes the
    product raise [OverflowError], so no fine is returned although the
    category is known. *)
Lemma calculate_fine_huge_days_raises :
  0 < 2 ^ 1024
  /\ known_category "regular"
  /\ calculate_fine (2 ^ 1024) "regular"
     = Raise (OverflowError "int too large to convert to float")
  /\ ~ (forall z c, 0 < z ->
          exists v, calculate_fine z (category_tag c) = Return v).
Proof.
  split; [reflexivity|]. split; [exists Regular; reflexivity|].
  split; [vm_compute; reflexivity|].
  intros H. destruct (H (2 ^ 1024) Regular eq_refl) as [v Hv].
  vm_compute in Hv. discriminate.
Qed.

(** C3, amended: [calculate_fine] returns zero for a day count that is
    not positive, whatever the category; for a positive day count it
    raises the unknown-category [ValueError] exactly when the category is
    unknown; for a known category and a day count that converts to a float
    (every count below [2^1023] does) it returns exactly the smaller of
    days times daily rate and ten times the daily rate; a day count that
    does not convert (none from [2^1024] on does) raises
    [OverflowError]. *)
Theorem calculate_fine_capped_product :
  (forall z bt, z <= 0 -> calculate_fine z bt = Return 0.0%float)
  /\ (forall z bt,
         0 < z ->
         (calculate_fine z bt
          = Raise (ValueError ("Unknown book type: " ++ bt))
          <-> ~ known_category bt))
  /\ (forall z c,
         0 < z -> converts z ->
         exists v,
           calculate_fine z (category_tag c) = Return v
           /\ has_value v (spec_fine z c))
  /\ (forall z c,
         0 < z -> ~ converts z ->
         calculate_fine z (category_tag c)
         = Raise (OverflowError "int too large to convert to float"))
  /\ (forall z, 0 < z < 2 ^ 1023 -> converts z)
  /\ (forall z, 2 ^ 1024 <= z -> ~ converts z).
Proof.
  split; [exact calculate_fine_not_overdue|]. split; [|split; [|split; [|split]]].
  - intros z bt Hz. split; [|apply calculate_fine_unknown; assumption].
    intros H [c ->]. rewrite calculate_fine_known in H by assumption.
    unfold PyFloat.int_mul in H.
    destruct (of_int_cases z) as [[f Hf]|Hf]; rewrite Hf in H; discriminate.
  - intros z c Hz Hc. apply returns_spec_fine_sound.
    now apply returns_spec_fine_converts.
  - exact calculate_fine_overflow.
  - exact of_int_small_returns.
  - intros z Hz [f Hf]. rewrite (of_int_large_raises z Hz) in Hf. discriminate.
Qed.

Lemma calculate_fine_capped_product_witness :
  calculate_fine (-3) "magazine" = Return 0.0%float
  /\ (exists v,
         calculate_fine 7 "popular" = Return v
         /\ has_value v (spec_fine 7 Popular))
  /\ calculate_fine (2 ^ 1030) "popular"
     = Raise (OverflowError "int too large to convert to float").
Proof.
  destruct calculate_fine_capped_product as (H0 & _ & Hv & Hover & Hsmall & Hbig).
  split; [apply (H0 (-3) "magazine"); lia|]. split.
  - apply (Hv 7 Popular); [lia|]. apply Hsmall. split; reflexivity.
  - apply (Hover (2 ^ 1030) Popular); [reflexivity|].
    apply Hbig. discriminate.
Defined.

(** C4: for a positive day count and a known category the amount returned
    is a whole number of hundredths; every day count below [2^1023]
    returns such an amount; the rates are 0.50, 1.00 and 2.00; and ten
    days cost 5.00, 10.00 and 20.00, twenty days of a regular book 5.00,
    zero days nothing. *)
Theorem calculate_fine_amounts :
  (forall z c v,
      0 < z -> calculate_fine z (category_tag c) = Return v ->
      two_decimals v)
  /\ (forall z c,
         0 < z < 2 ^ 1023 ->
         exists v, calculate_fine z (category_tag c) = Return v
                   /\ two_decimals v)
  /\ (forall c,
         getitem fine_rates (category_tag c) = Return (rate_float c)
         /\ has_value (rate_float c) (dailyRate c))
  /\ calculate_fine 10 REGULAR_BOOK = Return 5.0%float
  /\ calculate_fine 20 REGULAR_BOOK = Return 5.0%float
  /\ calculate_fine 10 POPULAR_BOOK = Return 10.0%float
  /\ calculate_fine 10 REFERENCE_BOOK = Return 20.0%float
  /\ calculate_fine 0 REGULAR_BOOK = Return 0.0%float
  /\ has_value 5.0 5
  /\ has_value 10.0 10
  /\ has_value 20.0 20
  /\ has_value 0.0 0.
Proof.
  split; [exact calculate_fine_two_decimals|]. split; [|split].
  - intros z c Hz.
    destruct (returns_spec_fine_sound z c) as (v & Hv & _).
    { apply returns_spec_fine_converts; [lia|]. now apply of_int_small_returns. }
    exists v. split; [exact Hv|].
    apply (calculate_fine_two_decimals z c v); [lia|exact Hv].
  - intros c. split; [apply getitem_fine_rates|].
    destruct c; eexists; (split; [vm_compute; reflexivity|reflexivity]).
  - repeat (split; [vm_compute; reflexivity|]).
    repeat split; eexists; (split; [vm_compute; reflexivity|reflexivity]).
Qed.

Lemma calculate_fine_amounts_witness :
  two_decimals 4.5%float
  /\ exists v, calculate_fine 3 "reference" = Return v /\ two_decimals v.
Proof.
  destruct calculate_fine_amounts as (Hdec & Hret & _). split.
  - apply (Hdec 9 Regular 4.5%float); [lia|reflexivity].
  - apply (Hret 3 Reference). split; reflexivity.
Defined.

End FineClaims.

(** * Further properties of the loan approval *)

Section FloatOrderFacts.



Lemma leb_nan_r x y : Prim2SF y = S754_nan -> (x <=? y)%float = false.
Proof.
  intros H. rewrite FloatAxioms.leb_spec, H.
  unfold SFleb, SFcompare. now destruct (Prim2SF x).
Qed.

Lemma eqb_nan_l x y : Prim2SF x = S754_nan -> (x =? y)%float = false.
Proof. intros H. now rewrite FloatAxioms.eqb_spec, H. Qed.




(** Comparison against two positive constants with different exponents. *)
Lemma leb_upper_weaken x c1 c2 m1 e1 m2 e2 :
  Prim2SF c1 = S754_finite false m1 e1 ->
  Prim2SF c2 = S754_finite false m2 e2 ->
  e1 < e2 ->
  (x <=? c1)%float = true -> (x <=? c2)%float = true.
Proof.
  intros H1 H2 He. rewrite !FloatAxioms.leb_spec, H1, H2.
  unfold SFleb, SFcompare.
  destruct (Prim2SF x) as [s|[]| |[] m e]; try (intros; reflexivity);
    try discriminate.
  destruct (Z.compare_spec e e1), (Z.compare_spec e e2);
    try discriminate; try reflexivity; lia.
Qed.

Lemma leb_lower_weaken x c1 c2 m1 e1 m2 e2 :
  Prim2SF c1 = S754_finite false m1 e1 ->
  Prim2SF c2 = S754_finite false m2 e2 ->
  e1 < e2 ->
  (c2 <=? x)%float = true -> (c1 <=? x)%float = true.
Proof.
  intros H1 H2 He. rewrite !FloatAxioms.leb_spec, H1, H2.
  unfold SFleb, SFcompare.
  destruct (Prim2SF x) as [s|[]| |[] m e]; try (intros; reflexivity);
    try discriminate.
  destruct (Z.compare_spec e2 e), (Z.compare_spec e1 e);
    try discriminate; try reflexivity; lia.
Qed.

End FloatOrderFacts.

Section ApprovalExtras.
Import LoanApprover.

(** X1: a higher credit score never gives a worse decision: with income,
    debt and employment fixed, the decision for the higher score ranks at
    least as high (Rejected below Manual Review below Approved). *)
Theorem approve_loan_monotone_in_score :
  forall cs cs' inc debt emp,
    cs <= cs' ->
    exists d d',
      approve_loan init cs inc debt emp = Return (Decision_str d)
      /\ approve_loan init cs' inc debt emp = Return (Decision_str d')
      /\ Decision_rank d <= Decision_rank d'.
Proof.
  intros cs cs' inc debt emp Hle.
  exists (spec_decide cs inc debt emp), (spec_decide cs' inc debt emp).
  rewrite !approve_loan_decide. split; [reflexivity|]. split; [reflexivity|].
  unfold spec_decide.
  destruct (negb emp); [reflexivity|].
  destruct (Z.leb_spec 750 cs), (Z.leb_spec 750 cs'),
           (Z.leb_spec 650 cs), (Z.leb_spec 650 cs'); try lia;
    destruct (spec_debtRatio inc debt <=? 0.4)%float,
             (spec_debtRatio inc debt <=? 0.2)%float,
             (30000 <=? inc)%float, (60000 <=? inc)%float;
    cbn; lia.
Qed.

Lemma approve_loan_monotone_in_score_witness :
  exists d d',
    approve_loan init 600 50000 15000 true = Return (Decision_str d)
    /\ approve_loan init 700 50000 15000 true = Return (Decision_str d')
    /\ Decision_rank d <= Decision_rank d'.
Proof. apply (approve_loan_monotone_in_score 600 700 50000 15000 true). lia. Defined.





(** X4: the Manual Review granted to a low score is harder to get than an
    approval: an employed applicant who gets Manual Review with a score
    below 650 is Approved, on the same income and debt, with any score of
    at least 650. *)
Theorem low_score_manual_review_implies_approval :
  forall cs cs' inc debt,
    cs < 650 -> 650 <= cs' ->
    approve_loan init cs inc debt true = Return "Manual Review" ->
    approve_loan init cs' inc debt true = Return "Approved".
Proof.
  intros cs cs' inc debt Hlow Hmid. rewrite !approve_loan_decide.
  intros Hm. injection Hm as Hm.
  apply (Decision_str_inj _ ManualReview) in Hm. revert Hm.
  unfold spec_decide. cbn [negb].
  destruct (Z.leb_spec 750 cs); [lia|].
  destruct (Z.leb_spec 650 cs); [lia|].
  destruct (60000 <=? inc)%float eqn:Hinc; [|discriminate].
  destruct (spec_debtRatio inc debt <=? 0.2)%float eqn:Hr; [|discriminate].
  intros _.
  rewrite (leb_upper_weaken _ 0.2 0.4 _ _ _ _ eq_refl eq_refl
             ltac:(reflexivity) Hr).
  rewrite (leb_lower_weaken _ 30000 60000 _ _ _ _ eq_refl eq_refl
             ltac:(reflexivity) Hinc).
  destruct (Z.leb_spec 750 cs'); [reflexivity|].
  destruct (Z.leb_spec 650 cs'); [reflexivity|lia].
Qed.

Lemma low_score_manual_review_implies_approval_witness :
  approve_loan init 700 70000 10500 true = Return "Approved".
Proof.
  apply (low_score_manual_review_implies_approval 600 700 70000 10500);
    [lia|lia|reflexivity].
Defined.



End ApprovalExtras.

(** * Further properties of the library loans *)

Section RenewalExtras.
Import PyDict LoanManager.

Lemma can_renew_loan_known c d r p req :
  0 <= d -> 0 < r -> 0 <= p ->
  can_renew_loan (category_tag c) d r p req
  = Return (negb req && (p <? MAX_RENEWALS) && (d + r <=? maxDays c)).
Proof.
  intros Hd Hr Hp. unfold can_renew_loan.
  rewrite contains_category, getitem_period. cbn [negb bind].
  rewrite getitem_max. cbn [bind].
  destruct (Z.ltb_spec d 0); [lia|].
  destruct (Z.leb_spec r 0); [lia|].
  destruct (Z.ltb_spec p 0); [lia|].
  destruct req; [reflexivity|]. cbn [negb andb].
  rewrite Z.geb_leb, Z.gtb_ltb.
  destruct (Z.leb_spec MAX_RENEWALS p), (Z.ltb_spec p MAX_RENEWALS); try lia;
    [reflexivity|]. cbn [andb].
  destruct (Z.ltb_spec (maxDays c) (d + r)), (Z.leb_spec (d + r) (maxDays c));
    try lia; reflexivity.
Qed.

(** A call that returns had valid arguments. *)
Lemma can_renew_loan_returns bt d r p req b :
  can_renew_loan bt d r p req = Return b ->
  exists c, bt = category_tag c /\ 0 <= d /\ 0 < r /\ 0 <= p.
Proof.
  intros H.
  destruct (contains LOAN_PERIODS bt) eqn:E.
  - apply contains_LOAN_PERIODS in E. destruct E as [c ->]. exists c.
    split; [reflexivity|].
    destruct (Z.lt_ge_cases d 0) as [Hd|Hd];
      [destruct (can_renew_loan_invalid (category_tag c) d r p req) as [m Hm];
       [tauto|congruence]|].
    destruct (Z.le_gt_cases r 0) as [Hr|Hr];
      [destruct (can_renew_loan_invalid (category_tag c) d r p req) as [m Hm];
       [tauto|congruence]|].
    destruct (Z.lt_ge_cases p 0) as [Hp|Hp];
      [destruct (can_renew_loan_invalid (category_tag c) d r p req) as [m Hm];
       [tauto|congruence]|].
    lia.
  - destruct (can_renew_loan_invalid bt d r p req) as [m Hm]; [|congruence].
    left. intros K. apply contains_LOAN_PERIODS in K. congruence.
Qed.

(** X6: the renewal rule.  For a known category and valid counts the call
    returns [true] exactly when the book is not requested by another user,
    fewer than two renewals were made, and the days already loaned plus the
    renewal days do not exceed the category's maximum; so two or more
    previous renewals, or a total one day over the maximum, deny the
    renewal whatever the other arguments are. *)
Theorem can_renew_loan_rule :
  (forall c d r p req,
      0 <= d -> 0 < r -> 0 <= p ->
      exists b,
        can_renew_loan (category_tag c) d r p req = Return b
        /\ (b = true <-> req = false /\ p < 2 /\ d + r <= maxDays c))
  /\ (forall c d r p req,
         0 <= d -> 0 < r -> 2 <= p ->
         can_renew_loan (category_tag c) d r p req = Return false)
  /\ (forall c d r p req,
         0 <= d -> 0 < r -> 0 <= p -> maxDays c < d + r ->
         can_renew_loan (category_tag c) d r p req = Return false).
Proof.
  split; [|split].
  - intros c d r p req Hd Hr Hp. rewrite can_renew_loan_known by assumption.
    eexists; split; [reflexivity|].
    rewrite !andb_true_iff, negb_true_iff, Z.ltb_lt, Z.leb_le.
    unfold MAX_RENEWALS. tauto.
  - intros c d r p req Hd Hr Hp. rewrite can_renew_loan_known by lia.
    unfold MAX_RENEWALS. destruct (Z.ltb_spec p 2); [lia|].
    now rewrite andb_false_r.
  - intros c d r p req Hd Hr Hp Hover.
    rewrite can_renew_loan_known by assumption.
    destruct (Z.leb_spec (d + r) (maxDays c)); [lia|].
    now rewrite andb_false_r.
Qed.

Lemma can_renew_loan_rule_witness :
  can_renew_loan "regular" 27 3 1 false = Return true
  /\ can_renew_loan "regular" 15 5 2 false = Return false
  /\ can_renew_loan "regular" 28 3 1 false = Return false.
Proof.
  destruct can_renew_loan_rule as (Hiff & Hcount & Hover).
  split; [|split].
  - destruct (Hiff Regular 27 3 1 false) as (b & Hb & Hiffb); try lia.
    refine (eq_trans Hb _). f_equal. apply Hiffb. cbn. repeat split; lia.
  - apply (Hcount Regular 15 5 2 false); lia.
  - apply (Hover Regular 28 3 1 false); cbn; lia.
Defined.

Lemma can_renew_loan_raises_iff bt d r p req :
  raises (can_renew_loan bt d r p req)
  <-> ~ known_category bt \/ d < 0 \/ r <= 0 \/ p < 0.
Proof.
  split.
  - intros [e He].
    destruct (contains LOAN_PERIODS bt) eqn:Ec.
    + apply contains_LOAN_PERIODS in Ec. destruct Ec as [c ->].
      destruct (Z.lt_ge_cases d 0); [tauto|].
      destruct (Z.le_gt_cases r 0); [tauto|].
      destruct (Z.lt_ge_cases p 0); [tauto|].
      rewrite can_renew_loan_known in He by assumption. discriminate.
    + left. intros K. apply contains_LOAN_PERIODS in K. congruence.
  - intros H. destruct (can_renew_loan_invalid bt d r p req H) as [m Hm].
    eexists; exact Hm.
Qed.

(** X7: the argument checks of a renewal run in a fixed order, and each
    reports its own message: an unknown book type first, then negative
    days already loaned, then renewal days that are not positive, then a
    negative renewal count; a call raises exactly when one of the four
    applies, requested or not. *)
Theorem can_renew_loan_errors :
  (forall bt d r p req,
      ~ known_category bt ->
      can_renew_loan bt d r p req
      = Raise (ValueError ("Unknown book type: " ++ bt)))
  /\ (forall c d r p req,
         d < 0 ->
         can_renew_loan (category_tag c) d r p req
         = Raise (ValueError "Days already loaned cannot be negative"))
  /\ (forall c d r p req,
         0 <= d -> r <= 0 ->
         can_renew_loan (category_tag c) d r p req
         = Raise (ValueError "Renewal days must be positive"))
  /\ (forall c d r p req,
         0 <= d -> 0 < r -> p < 0 ->
         can_renew_loan (category_tag c) d r p req
         = Raise (ValueError "Previous renewals cannot be negative"))
  /\ (forall bt d r p req,
         raises (can_renew_loan bt d r p req)
         <-> ~ known_category bt \/ d < 0 \/ r <= 0 \/ p < 0).
Proof.
  split; [|split; [|split; [|split]]].
  - intros bt d r p req H. unfold can_renew_loan.
    now rewrite (unknown_category_not_contained _ H).
  - intros c d r p req Hd. unfold can_renew_loan.
    rewrite contains_category. cbn [negb].
    destruct (Z.ltb_spec d 0); [reflexivity|lia].
  - intros c d r p req Hd Hr. unfold can_renew_loan.
    rewrite contains_category. cbn [negb].
    destruct (Z.ltb_spec d 0); [lia|].
    destruct (Z.leb_spec r 0); [reflexivity|lia].
  - intros c d r p req Hd Hr Hp. unfold can_renew_loan.
    rewrite contains_category. cbn [negb].
    destruct (Z.ltb_spec d 0); [lia|].
    destruct (Z.leb_spec r 0); [lia|].
    destruct (Z.ltb_spec p 0); [reflexivity|lia].
  - exact can_renew_loan_raises_iff.
Qed.

Lemma can_renew_loan_errors_witness :
  can_renew_loan "magazine" (-1) 0 (-1) true
  = Raise (ValueError "Unknown book type: magazine")
  /\ can_renew_loan "popular" (-1) 0 (-1) false
     = Raise (ValueError "Days already loaned cannot be negative").
Proof.
  destruct can_renew_loan_errors as (Hbt & Hd & _).
  split.
  - apply (Hbt "magazine"). intros [[] H]; discriminate.
  - apply (Hd Popular (-1) 0 (-1) false). lia.
Defined.

(** X8: what was allowed stays allowed for less: when a renewal is allowed,
    it is also allowed with fewer days already loaned, fewer renewal days
    and fewer previous renewals, as long as these stay valid. *)
Theorem can_renew_loan_downward_closed :
  forall bt d r p req d' r' p',
    can_renew_loan bt d r p req = Return true ->
    0 <= d' <= d -> 0 < r' <= r -> 0 <= p' <= p ->
    can_renew_loan bt d' r' p' req = Return true.
Proof.
  intros bt d r p req d' r' p' H Hd' Hr' Hp'.
  destruct (can_renew_loan_returns _ _ _ _ _ _ H) as (c & -> & Hd & Hr & Hp).
  rewrite can_renew_loan_known in * by lia.
  injection H as H. f_equal.
  rewrite !andb_true_iff, Z.ltb_lt, Z.leb_le in *. intuition lia.
Qed.

Lemma can_renew_loan_downward_closed_witness :
  can_renew_loan "regular" 20 2 0 false = Return true.
Proof.
  apply (can_renew_loan_downward_closed "regular" 27 3 1 false 20 2 0);
    [reflexivity|lia..].
Defined.

(** X9: a loan that has used up its category's maximum period cannot be
    renewed; and whenever a renewal is allowed, the loan is below the
    maximum, the renewal days fit in what is left of it, at most one
    renewal was made before and nobody requested the book. *)
Theorem can_renew_loan_needs_headroom :
  (forall c d r p req,
      maxDays c <= d -> 0 < r -> 0 <= p ->
      can_renew_loan (category_tag c) d r p req = Return false)
  /\ (forall bt d r p req,
         can_renew_loan bt d r p req = Return true ->
         exists c,
           bt = category_tag c
           /\ 0 <= d < maxDays c /\ 0 < r <= maxDays c - d
           /\ 0 <= p <= 1 /\ req = false).
Proof.
  split.
  - intros c d r p req Hd Hr Hp.
    assert (0 <= d) by (destruct c; cbn in Hd; lia).
    rewrite can_renew_loan_known by assumption.
    destruct (Z.leb_spec (d + r) (maxDays c)); [lia|].
    now rewrite andb_false_r.
  - intros bt d r p req H.
    destruct (can_renew_loan_returns _ _ _ _ _ _ H) as (c & -> & Hd & Hr & Hp).
    exists c. split; [reflexivity|].
    rewrite can_renew_loan_known in H by assumption.
    injection H as H. unfold MAX_RENEWALS in H.
    rewrite !andb_true_iff, negb_true_iff, Z.ltb_lt, Z.leb_le in H.
    intuition lia.
Qed.

Lemma can_renew_loan_needs_headroom_witness :
  can_renew_loan "reference" 3 1 0 false = Return false.
Proof.
  apply (proj1 can_renew_loan_needs_headroom Reference 3 1 0 false);
    cbn; lia.
Defined.

(** X10: renewals keep a loan inside its category's range: when the days
    already loaned are a valid loan period and the renewal is allowed, the
    total of days already loaned and renewal days is a valid loan period
    too. *)
Theorem renewal_keeps_loan_period_valid :
  forall bt d r p req,
    validate_loan_days bt d = Return true ->
    can_renew_loan bt d r p req = Return true ->
    validate_loan_days bt (d + r) = Return true.
Proof.
  intros bt d r p req Hv Hr.
  destruct (can_renew_loan_returns _ _ _ _ _ _ Hr) as (c & -> & Hd & Hr0 & Hp).
  rewrite can_renew_loan_known in Hr by assumption.
  rewrite validate_loan_days_known in *.
  injection Hv as Hv. injection Hr as Hr. f_equal.
  rewrite !andb_true_iff, ?Z.ltb_lt, !Z.leb_le in *. intuition lia.
Qed.

Lemma renewal_keeps_loan_period_valid_witness :
  validate_loan_days "popular" (7 + 5) = Return true.
Proof.
  apply (renewal_keeps_loan_period_valid "popular" 7 5 0 false); reflexivity.
Defined.

End RenewalExtras.

Section QuantityExtras.
Import PyDict LoanManager.

Lemma validate_book_quantity_returns ut cb ab b :
  validate_book_quantity ut cb ab = Return b ->
  exists t, ut = tier_tag t /\ 0 <= cb /\ 0 < ab.
Proof.
  intros H.
  destruct (quantity_args_dec ut cb ab) as [Hinv|Hok].
  - destruct (validate_book_quantity_invalid _ _ _ Hinv) as [m Hm]. congruence.
  - destruct (contains MAX_BOOKS ut) eqn:E.
    + apply contains_MAX_BOOKS in E. destruct E as [t ->].
      exists t. split; [reflexivity|]. lia.
    + exfalso. apply Hok. left. intros K.
      apply contains_MAX_BOOKS in K. congruence.
Qed.

(** X11: a borrowing request that is allowed stays allowed when the user
    holds fewer books or asks for fewer, and when the user's tier is
    raised from regular to premium or from premium to researcher. *)
Theorem validate_book_quantity_monotone :
  (forall ut cb ab cb' ab',
      validate_book_quantity ut cb ab = Return true ->
      0 <= cb' <= cb -> 0 < ab' <= ab ->
      validate_book_quantity ut cb' ab' = Return true)
  /\ (forall cb ab,
         validate_book_quantity REGULAR_USER cb ab = Return true ->
         validate_book_quantity PREMIUM_USER cb ab = Return true)
  /\ (forall cb ab,
         validate_book_quantity PREMIUM_USER cb ab = Return true ->
         validate_book_quantity RESEARCHER_USER cb ab = Return true).
Proof.
  split; [|split].
  - intros ut cb ab cb' ab' H Hcb Hab.
    destruct (validate_book_quantity_returns _ _ _ _ H) as (t & -> & H1 & H2).
    rewrite validate_book_quantity_known in * by lia.
    injection H as H. f_equal. rewrite Z.leb_le in *. lia.
  - intros cb ab H.
    destruct (validate_book_quantity_returns _ _ _ _ H) as (_ & _ & H1 & H2).
    change REGULAR_USER with (tier_tag RegularUser) in H.
    change PREMIUM_USER with (tier_tag Premium).
    rewrite validate_book_quantity_known in * by lia.
    injection H as H. f_equal. rewrite Z.leb_le in *. cbn in *. lia.
  - intros cb ab H.
    destruct (validate_book_quantity_returns _ _ _ _ H) as (_ & _ & H1 & H2).
    change PREMIUM_USER with (tier_tag Premium) in H.
    change RESEARCHER_USER with (tier_tag Researcher).
    rewrite validate_book_quantity_known in * by lia.
    injection H as H. f_equal. rewrite Z.leb_le in *. cbn in *. lia.
Qed.

Lemma validate_book_quantity_monotone_witness :
  validate_book_quantity "regular" 1 2 = Return true
  /\ validate_book_quantity "premium" 3 2 = Return true.
Proof.
  destruct validate_book_quantity_monotone as (Hdown & Hup & _). split.
  - apply (Hdown "regular" 3 2 1 2); [reflexivity|lia..].
  - apply (Hup 3 2). reflexivity.
Defined.

(** X12: a user who already holds the tier's maximum can borrow nothing
    more, and with the default of one additional book the request is
    allowed exactly when the user holds fewer books than the maximum. *)
Theorem validate_book_quantity_at_limit :
  (forall t cb ab,
      maxItems t <= cb -> 0 < ab ->
      validate_book_quantity (tier_tag t) cb ab = Return false)
  /\ (forall t cb,
         0 <= cb ->
         exists b,
           validate_book_quantity (tier_tag t) cb 1 = Return b
           /\ (b = true <-> cb < maxItems t)).
Proof.
  split.
  - intros t cb ab Hcb Hab.
    assert (0 <= cb) by (destruct t; cbn in Hcb; lia).
    rewrite validate_book_quantity_known by assumption.
    f_equal. apply Z.leb_gt. lia.
  - intros t cb Hcb. rewrite validate_book_quantity_known by lia.
    eexists; split; [reflexivity|]. rewrite Z.leb_le. lia.
Qed.

Lemma validate_book_quantity_at_limit_witness :
  validate_book_quantity "researcher" 15 1 = Return false.
Proof.
  apply (proj1 validate_book_quantity_at_limit Researcher 15 1); cbn; lia.
Defined.

End QuantityExtras.

Section LookupExtras.
Import PyDict LoanManager.

Lemma contains_fine_rates bt :
  contains fine_rates bt = contains LOAN_PERIODS bt.
Proof.
  unfold contains, fine_rates, LOAN_PERIODS.
  destruct (decide (bt = REGULAR_BOOK)) as [->|H1]; [reflexivity|].
  destruct (decide (bt = POPULAR_BOOK)) as [->|H2]; [reflexivity|].
  destruct (decide (bt = REFERENCE_BOOK)) as [->|H3]; [reflexivity|].
  now rewrite !lookup_insert_ne, !lookup_singleton_ne by congruence.
Qed.

(** X13: no method of the loan manager lets a dictionary lookup fail.  The
    fine-rate table has exactly the keys of the loan-period table, every
    period has its "min" and "max" entries, and so no call of the four
    table-driven methods raises [KeyError], whatever its arguments. *)
Theorem no_key_error :
  (forall bt, contains fine_rates bt = contains LOAN_PERIODS bt)
  /\ (forall bt n k, validate_loan_days bt n <> Raise (KeyError k))
  /\ (forall ut cb ab k, validate_book_quantity ut cb ab <> Raise (KeyError k))
  /\ (forall bt d r p req k,
         can_renew_loan bt d r p req <> Raise (KeyError k))
  /\ (forall z bt k, calculate_fine z bt <> Raise (KeyError k)).
Proof.
  split; [exact contains_fine_rates|]. split; [|split; [|split]].
  - intros bt n k.
    destruct (contains LOAN_PERIODS bt) eqn:E.
    + apply contains_LOAN_PERIODS in E. destruct E as [c ->].
      now rewrite validate_loan_days_known.
    + unfold validate_loan_days. now rewrite E.
  - intros ut cb ab k H.
    destruct (quantity_args_dec ut cb ab) as [Hinv|Hok].
    + destruct (validate_book_quantity_invalid _ _ _ Hinv) as [m Hm].
      congruence.
    + destruct (contains MAX_BOOKS ut) eqn:E.
      * apply contains_MAX_BOOKS in E. destruct E as [t ->].
        rewrite validate_book_quantity_known in H by lia. discriminate.
      * apply Hok. left. intros K. apply contains_MAX_BOOKS in K. congruence.
  - intros bt d r p req k H.
    destruct (can_renew_loan bt d r p req) as [b|e] eqn:E; [discriminate|].
    assert (Hr : raises (can_renew_loan bt d r p req))
      by (eexists; exact E).
    apply can_renew_loan_raises_iff in Hr.
    destruct (can_renew_loan_invalid bt d r p req Hr) as [m Hm]. congruence.
  - intros z bt k H.
    destruct (Z.le_gt_cases z 0) as [Hz|Hz].
    + rewrite calculate_fine_not_overdue in H by assumption. discriminate.
    + destruct (contains LOAN_PERIODS bt) eqn:E.
      * apply contains_LOAN_PERIODS in E. destruct E as [c ->].
        rewrite calculate_fine_known in H by assumption.
        unfold PyFloat.int_mul in H.
        destruct (of_int_cases z) as [[f Hf]|Hf]; rewrite Hf in H;
          discriminate.
      * rewrite calculate_fine_unknown in H; [discriminate|assumption|].
        intros K. apply contains_LOAN_PERIODS in K. congruence.
Qed.

End LookupExtras.

Section FineExtras.
Import PyDict LoanManager.

(** The day counts from one to fifteen, one by one. *)
Ltac each_small_day z :=
  let H := fresh "Hs" in
  assert (H : z = 1 \/ z = 2 \/ z = 3 \/ z = 4 \/ z = 5 \/ z = 6 \/ z = 7
              \/ z = 8 \/ z = 9 \/ z = 10 \/ z = 11 \/ z = 12 \/ z = 13
              \/ z = 14 \/ z = 15) by lia;
  repeat (destruct H as [H|H]); subst z.

Lemma calculate_fine_returns z bt v :
  calculate_fine z bt = Return v ->
  (z <= 0 /\ v = 0.0%float)
  \/ exists c, bt = category_tag c /\ 0 < z
               /\ (z < 16 \/ (16 <= z /\ v = cap_float c)).
Proof.
  intros H. destruct (Z.le_gt_cases z 0) as [Hz|Hz].
  - left. rewrite calculate_fine_not_overdue in H by assumption.
    split; [assumption|congruence].
  - right. destruct (contains LOAN_PERIODS bt) eqn:E.
    + apply contains_LOAN_PERIODS in E. destruct E as [c ->].
      exists c. split; [reflexivity|]. split; [assumption|].
      destruct (Z.lt_ge_cases z 16) as [Hlt|Hge]; [left; exact Hlt|right].
      split; [exact Hge|].
      assert (Hc : converts z).
      { destruct (of_int_cases z) as [Hc|Hc]; [exact Hc|].
        rewrite calculate_fine_known in H by assumption.
        unfold PyFloat.int_mul in H. rewrite Hc in H. discriminate. }
      rewrite (calculate_fine_capped z c Hge Hc) in H. congruence.
    + rewrite calculate_fine_unknown in H; [discriminate|assumption|].
      intros K. apply contains_LOAN_PERIODS in K. congruence.
Qed.

Lemma calculate_fine_overdue_bounds z c v :
  0 < z -> calculate_fine z (category_tag c) = Return v ->
  (rate_float c <=? v)%float = true /\ (v <=? cap_float c)%float = true.
Proof.
  intros Hz H.
  destruct (calculate_fine_returns _ _ _ H)
    as [[Hz' _]|(c' & Hc' & _ & [Hlt|[Hge ->]])]; [lia| |].
  - each_small_day z; destruct c; vm_compute in H; injection H as <-;
      split; reflexivity.
  - assert (c' = c) by (destruct c, c'; cbv in Hc'; congruence). subst c'.
    destruct c; split; reflexivity.
Qed.

Lemma calculate_fine_range z bt v :
  calculate_fine z bt = Return v ->
  (0 <=? v)%float = true /\ (v <=? 20)%float = true.
Proof.
  intros H.
  destruct (calculate_fine_returns _ _ _ H) as [[_ ->]|(c & -> & Hz & _)];
    [split; reflexivity|].
  destruct (calculate_fine_overdue_bounds z c v Hz H) as [Hlo Hhi].
  split.
  - destruct c;
      [apply (leb_lower_weaken v 0x1p-1074 0.5 _ _ _ _ eq_refl eq_refl
                ltac:(reflexivity)) in Hlo
      |apply (leb_lower_weaken v 0x1p-1074 1 _ _ _ _ eq_refl eq_refl
                ltac:(reflexivity)) in Hlo
      |apply (leb_lower_weaken v 0x1p-1074 2 _ _ _ _ eq_refl eq_refl
                ltac:(reflexivity)) in Hlo];
      revert Hlo; rewrite !FloatAxioms.leb_spec;
      change (Prim2SF 0) with (S754_zero false);
      unfold SFleb, SFcompare;
      destruct (Prim2SF v) as [?|[]| |[] ? ?]; try discriminate; reflexivity.
  - destruct c; [| |exact Hhi].
    + apply (leb_upper_weaken v 5 20 _ _ _ _ eq_refl eq_refl
               ltac:(reflexivity) Hhi).
    + apply (leb_upper_weaken v 10 20 _ _ _ _ eq_refl eq_refl
               ltac:(reflexivity) Hhi).
Qed.

(** X14: a fine is never negative and never above 20; for an overdue book
    of a known category it is at least one daily rate and at most ten. *)
Theorem calculate_fine_bounds :
  (forall z bt v,
      calculate_fine z bt = Return v ->
      (0 <=? v)%float = true /\ (v <=? 20)%float = true)
  /\ (forall z c v,
         0 < z -> calculate_fine z (category_tag c) = Return v ->
         (rate_float c <=? v)%float = true
         /\ (v <=? cap_float c)%float = true).
Proof.
  split; [exact calculate_fine_range|exact calculate_fine_overdue_bounds].
Qed.

Lemma calculate_fine_bounds_witness :
  (0.5 <=? 3.5)%float = true /\ (3.5 <=? 5)%float = true.
Proof.
  apply (proj2 calculate_fine_bounds 7 Regular 3.5%float); [lia|reflexivity].
Defined.

(** X15: more days overdue never cost less: of two calls for the same book
    type that both return, the one with the larger day count returns the
    larger or the same fine. *)
Theorem calculate_fine_monotone :
  forall z1 z2 bt v1 v2,
    z1 <= z2 ->
    calculate_fine z1 bt = Return v1 ->
    calculate_fine z2 bt = Return v2 ->
    (v1 <=? v2)%float = true.
Proof.
  intros z1 z2 bt v1 v2 Hle H1 H2.
  destruct (calculate_fine_returns _ _ _ H1)
    as [[Hz1 ->]|(c & -> & Hz1 & Hc1)].
  - apply (calculate_fine_range z2 bt v2 H2).
  - destruct (Z.lt_ge_cases z2 16) as [Hlt|Hge].
    + clear Hc1. each_small_day z2; each_small_day z1; try lia;
        destruct c; vm_compute in H1, H2;
        injection H1 as <-; injection H2 as <-; reflexivity.
    + destruct (calculate_fine_returns _ _ _ H2)
        as [[Hz2 _]|(c' & Hc' & _ & [Hlt|[_ ->]])]; [lia|lia|].
      assert (c' = c) by (destruct c, c'; cbv in Hc'; congruence). subst c'.
      apply (calculate_fine_overdue_bounds z1 c v1 Hz1 H1).
Qed.

Lemma calculate_fine_monotone_witness : (1.5 <=? 5)%float = true.
Proof.
  apply (calculate_fine_monotone 3 12 "regular" 1.5%float 5%float);
    [lia|reflexivity|reflexivity].
Defined.

(** X16: the cap is reached at exactly ten days: from ten days on every
    day count that converts to a float returns the same fine, ten times
    the daily rate, and below ten days the fine is strictly smaller. *)
Theorem calculate_fine_cap_from_ten_days :
  (forall z c,
      10 <= z -> converts z ->
      calculate_fine z (category_tag c) = Return (cap_float c))
  /\ (forall z c v,
         0 < z < 10 -> calculate_fine z (category_tag c) = Return v ->
         (v <? cap_float c)%float = true).
Proof.
  split.
  - intros z c Hz Hc. destruct (Z.lt_ge_cases z 16) as [Hlt|Hge].
    + each_small_day z; try lia; destruct c; reflexivity.
    + now apply calculate_fine_capped.
  - intros z c v Hz H.
    each_small_day z; try lia; destruct c; vm_compute in H;
      injection H as <-; reflexivity.
Qed.

Lemma calculate_fine_cap_from_ten_days_witness :
  calculate_fine 365 "popular" = Return 10%float
  /\ (9 <? 10)%float = true.
Proof.
  destruct calculate_fine_cap_from_ten_days as [Hcap Hbelow]. split.
  - apply (Hcap 365 Popular); [lia|]. exists 365%float. reflexivity.
  - apply (Hbelow 9 Popular 9%float); [lia|reflexivity].
Defined.

(** X17: the three categories charge in the ratio 1 : 2 : 4: when the call
    for a regular book returns a fine, the calls for a popular and for a
    reference book with the same day count return exactly twice and four
    times that fine. *)
Theorem calculate_fine_category_ratio :
  forall z v,
    calculate_fine z REGULAR_BOOK = Return v ->
    calculate_fine z POPULAR_BOOK = Return (2 * v)%float
    /\ calculate_fine z REFERENCE_BOOK = Return (4 * v)%float.
Proof.
  intros z v H.
  destruct (calculate_fine_returns _ _ _ H)
    as [[Hz ->]|(c & Hc & Hz & [Hlt|[Hge ->]])].
  - rewrite !calculate_fine_not_overdue by assumption. split; reflexivity.
  - each_small_day z; vm_compute in H; injection H as <-; split; reflexivity.
  - assert (c = Regular) by (destruct c; cbv in Hc; congruence). subst c.
    assert (Hcv : converts z).
    { destruct (of_int_cases z) as [Hcv|Hcv]; [exact Hcv|].
      change REGULAR_BOOK with (category_tag Regular) in H.
      rewrite calculate_fine_known in H by assumption.
      unfold PyFloat.int_mul in H. rewrite Hcv in H. discriminate. }
    split.
    + apply (calculate_fine_capped z Popular Hge Hcv).
    + apply (calculate_fine_capped z Reference Hge Hcv).
Qed.

Lemma calculate_fine_category_ratio_witness :
  calculate_fine 3 "popular" = Return (2 * 1.5)%float
  /\ calculate_fine 3 "reference" = Return (4 * 1.5)%float.
Proof. apply (calculate_fine_category_ratio 3 1.5%float). reflexivity. Defined.

End FineExtras.

Section DueDateExtras.
Import LoanManager PyDatetime.

(** The two messages of an oversized day count. *)
Lemma timedelta_days_messages :
  timedelta_days 1000000000
  = Raise (OverflowError "days=1000000000; must have magnitude <= 999999999")
  /\ timedelta_days (2 ^ 31)
     = Raise (OverflowError "Python int too large to convert to C int").
Proof. split; reflexivity. Qed.

Lemma calculate_due_date_returns o n d' :
  calculate_due_date o n = Return d' ->
  exists d,
    o = Datetime d /\ 0 < n
    /\ MINORDINAL <= ordinal d + n <= MAXORDINAL
    /\ d' = {| ordinal := ordinal d + n;
               microsecond_of_day := microsecond_of_day d |}.
Proof.
  unfold calculate_due_date.
  destruct o as [d| | | |]; cbn [as_datetime]; try discriminate.
  destruct (Z.leb_spec n 0); [discriminate|].
  unfold timedelta_days.
  destruct (Z.abs n <=? 999999999); [|destruct (_ && _); discriminate].
  cbn [bind]. unfold add.
  destruct (Z.leb_spec MINORDINAL (ordinal d + n)); [|discriminate].
  destruct (Z.leb_spec (ordinal d + n) MAXORDINAL); [|discriminate].
  cbn [andb]. intros [= <-]. exists d. repeat split; assumption.
Qed.

Lemma calculate_due_date_in_range d n :
  MINORDINAL <= ordinal d -> 0 < n -> ordinal d + n <= MAXORDINAL ->
  calculate_due_date (Datetime d) n
  = Return {| ordinal := ordinal d + n;
              microsecond_of_day := microsecond_of_day d |}.
Proof.
  unfold MINORDINAL, MAXORDINAL. intros Hlo Hn Hhi.
  unfold calculate_due_date; cbn [as_datetime].
  destruct (Z.leb_spec n 0); [lia|].
  unfold timedelta_days.
  destruct (Z.leb_spec (Z.abs n) 999999999); [|lia]. cbn [bind].
  unfold add, MINORDINAL, MAXORDINAL.
  destruct (Z.leb_spec 1 (ordinal d + n)); [|lia].
  destruct (Z.leb_spec (ordinal d + n) 3652059); [|lia].
  reflexivity.
Qed.

Lemma calculate_due_date_past_range d n :
  MINORDINAL <= ordinal d -> 0 < n -> MAXORDINAL < ordinal d + n ->
  exists msg, calculate_due_date (Datetime d) n = Raise (OverflowError msg).
Proof.
  unfold MINORDINAL, MAXORDINAL. intros Hlo Hn Hhi.
  unfold calculate_due_date; cbn [as_datetime].
  destruct (Z.leb_spec n 0); [lia|].
  unfold timedelta_days.
  destruct (Z.leb_spec (Z.abs n) 999999999);
    [|destruct (_ && _); eexists; reflexivity].
  cbn [bind]. unfold add, MINORDINAL, MAXORDINAL.
  destruct (Z.leb_spec (ordinal d + n) 3652059); [lia|].
  rewrite andb_false_r. eexists; reflexivity.
Qed.

(** X18: due dates add up.  Moving a due date on by further days gives the
    due date of the original loan date for the total of the days, when that
    total stays within the calendar; when it does not, both computations
    raise [OverflowError]. *)
Theorem calculate_due_date_additive :
  forall d a b d1,
    valid d -> 0 < b ->
    calculate_due_date (Datetime d) a = Return d1 ->
    (ordinal d + a + b <= MAXORDINAL ->
     calculate_due_date (Datetime d1) b
     = calculate_due_date (Datetime d) (a + b)
     /\ calculate_due_date (Datetime d) (a + b)
        = Return {| ordinal := ordinal d + a + b;
                    microsecond_of_day := microsecond_of_day d |})
    /\ (MAXORDINAL < ordinal d + a + b ->
        (exists msg,
            calculate_due_date (Datetime d1) b = Raise (OverflowError msg))
        /\ (exists msg,
               calculate_due_date (Datetime d) (a + b)
               = Raise (OverflowError msg))).
Proof.
  intros d a b d1 [[Hlo Hhi] _] Hb H.
  destruct (calculate_due_date_returns _ _ _ H)
    as (d0 & [= <-] & Ha & [Hlo1 Hhi1] & ->).
  split.
  - intros Hsum.
    rewrite (calculate_due_date_in_range d (a + b)) by lia.
    rewrite calculate_due_date_in_range by (cbn; lia).
    cbn. split; f_equal; f_equal; lia.
  - intros Hsum. split.
    + apply calculate_due_date_past_range; cbn; lia.
    + apply calculate_due_date_past_range; lia.
Qed.

Lemma calculate_due_date_additive_witness :
  calculate_due_date
    (Datetime {| ordinal := 739014; microsecond_of_day := 0 |}) 7
  = calculate_due_date
      (Datetime {| ordinal := 739000; microsecond_of_day := 0 |}) (14 + 7).
Proof.
  apply (calculate_due_date_additive
           {| ordinal := 739000; microsecond_of_day := 0 |} 14 7
           {| ordinal := 739014; microsecond_of_day := 0 |});
    [cbv; repeat split; congruence|lia|reflexivity|cbv; congruence].
Defined.

(** X19: a validated loan period always has a due date.  When
    [validate_loan_days] accepts the period and the loan date lies at
    least 30 days before the end of the calendar, [calculate_due_date]
    returns a valid datetime between one and thirty days after the loan
    date. *)
Theorem validated_period_has_due_date :
  forall bt n d,
    validate_loan_days bt n = Return true ->
    valid d -> ordinal d + 30 <= MAXORDINAL ->
    exists d',
      calculate_due_date (Datetime d) n = Return d'
      /\ valid d'
      /\ ordinal d < ordinal d' <= ordinal d + 30
      /\ microsecond_of_day d' = microsecond_of_day d.
Proof.
  intros bt n d Hv [[Hlo Hhi] Hus] Hend.
  assert (Hn : 1 <= n <= 30).
  { destruct (PyDict.contains LOAN_PERIODS bt) eqn:E.
    - apply contains_LOAN_PERIODS in E. destruct E as [c ->].
      rewrite validate_loan_days_known in Hv. injection Hv as Hv.
      rewrite andb_true_iff, !Z.leb_le in Hv. destruct c; cbn in Hv; lia.
    - unfold validate_loan_days in Hv. rewrite E in Hv. discriminate. }
  eexists. split; [apply calculate_due_date_in_range; lia|].
  unfold valid, MINORDINAL in *. cbn. repeat split; lia.
Qed.

Lemma validated_period_has_due_date_witness :
  exists d',
    calculate_due_date
      (Datetime {| ordinal := 739000; microsecond_of_day := 0 |}) 3
    = Return d'
    /\ valid d'
    /\ 739000 < ordinal d' <= 739000 + 30
    /\ microsecond_of_day d' = 0.
Proof.
  apply (validated_period_has_due_date "reference" 3
           {| ordinal := 739000; microsecond_of_day := 0 |});
    [reflexivity|cbv; repeat split; congruence|cbv; congruence].
Defined.

(** X20: the loan date can be read back from the due date: whenever
    [calculate_due_date] returns, its argument was a datetime, the day
    count was positive, the due date is that many days later with the same
    time of day, and going back that many days from the due date gives the
    loan date; so the same loan date never has one due date for two
    different day counts. *)
Theorem calculate_due_date_round_trip :
  (forall o n d',
      calculate_due_date o n = Return d' ->
      0 < n
      /\ o = Datetime {| ordinal := ordinal d' - n;
                         microsecond_of_day := microsecond_of_day d' |})
  /\ (forall o n n' d',
         calculate_due_date o n = Return d' ->
         calculate_due_date o n' = Return d' ->
         n = n').
Proof.
  split.
  - intros o n d' H.
    destruct (calculate_due_date_returns _ _ _ H) as (d & -> & Hn & _ & ->).
    split; [exact Hn|]. destruct d as [od us]. cbn. do 2 f_equal. lia.
  - intros o n n' d' H H'.
    destruct (calculate_due_date_returns _ _ _ H) as (d & -> & _ & _ & ->).
    destruct (calculate_due_date_returns _ _ _ H')
      as (d0 & [= <-] & _ & _ & Heq).
    injection Heq as Heq. lia.
Qed.

Lemma calculate_due_date_round_trip_witness :
  0 < 14
  /\ Datetime {| ordinal := 739000; microsecond_of_day := 5 |}
     = Datetime {| ordinal := 739014 - 14; microsecond_of_day := 5 |}.
Proof.
  apply (proj1 calculate_due_date_round_trip
           (Datetime {| ordinal := 739000; microsecond_of_day := 5 |}) 14
           {| ordinal := 739014; microsecond_of_day := 5 |}).
  reflexivity.
Defined.

End DueDateExtras.

Section LoanDaysExtras.
Import LoanManager.

(** X21: the three loan-period ranges hardly overlap: a period accepted for
    a reference book is rejected for a regular and for a popular book, and
    a period is accepted for both a regular and a popular book exactly when
    it is 14 days; so no period is accepted for all three. *)
Theorem loan_period_ranges_overlap :
  (forall n,
      validate_loan_days REFERENCE_BOOK n = Return true ->
      validate_loan_days REGULAR_BOOK n = Return false
      /\ validate_loan_days POPULAR_BOOK n = Return false)
  /\ (forall n,
         (validate_loan_days REGULAR_BOOK n = Return true
          /\ validate_loan_days POPULAR_BOOK n = Return true)
         <-> n = 14).
Proof.
  change REFERENCE_BOOK with (category_tag Reference).
  change REGULAR_BOOK with (category_tag Regular).
  change POPULAR_BOOK with (category_tag Popular).
  split; intros n; rewrite !validate_loan_days_known; cbn [minDays maxDays].
  - intros [= H]. rewrite andb_true_iff, !Z.leb_le in H.
    split; f_equal; apply andb_false_iff; rewrite !Z.leb_gt; lia.
  - split.
    + intros [[= H1] [= H2]]. rewrite andb_true_iff, !Z.leb_le in H1, H2. lia.
    + intros ->. split; reflexivity.
Qed.

Lemma loan_period_ranges_overlap_witness :
  validate_loan_days "regular" 2 = Return false
  /\ validate_loan_days "popular" 2 = Return false.
Proof. apply (proj1 loan_period_ranges_overlap 2). reflexivity. Defined.

End LoanDaysExtras.
